(** * Flask-DjangoQuery: the lookup translator and the serialization view

    A shallow embedding of [flask_djangoquery.py]: the Django-style
    [filter_by] / [exclude_by] / [order_by] / [select_related] methods of
    [DjangoQuery], the load-state classifier [get_entity_loaded_propnames]
    and the [__json__] hook with its encoder.

    The SQLAlchemy query object is a collaborator: it is modelled by the
    sequence of calls made on it together with its current join point.
    SQL expressions are modelled as the syntax tree of the constructor
    calls that build them. *)

From Stdlib Require Import ZArith.
From stdpp Require Import gmap strings list.

#[local] Set Warnings "-clear-no-such-hyp".

Open Scope string_scope.
Open Scope list_scope.

(** ** Python strings *)

Module PyStr.

(** [prefix p s]: does [s] start with [p]. *)
Fixpoint startswith (p s : string) : bool :=
  match p, s with
  | EmptyString, _ => true
  | String a p', String b s' => if Ascii.eqb a b then startswith p' s' else false
  | String _ _, EmptyString => false
  end.

(** [sub in s] for strings: [sub] occurs in [s]. *)
Fixpoint contains (sub s : string) : bool :=
  startswith sub s ||
  match s with
  | EmptyString => false
  | String _ s' => contains sub s'
  end.

(** [s.replace(old, new)] for a non-empty [old]: leftmost occurrences, not
    overlapping.  [skip] counts the characters of a matched occurrence that
    are still to be dropped. *)
Fixpoint replace_from (old new : string) (skip : nat) (s : string) : string :=
  match s with
  | EmptyString => EmptyString
  | String c s' =>
      match skip with
      | S k => replace_from old new k s'
      | O =>
          if startswith old s
          then (new ++ replace_from old new (String.length old - 1) s')%string
          else String c (replace_from old new 0 s')
      end
  end.

Definition replace (old new s : string) : string := replace_from old new 0 s.

(** [s.split(sep)] for a non-empty [sep].  The result is never empty: the
    head of the list is the token being read. *)
Fixpoint split_from (sep : string) (skip : nat) (s : string) : string * list string :=
  match s with
  | EmptyString => (EmptyString, [])
  | String c s' =>
      match skip with
      | S k => split_from sep k s'
      | O =>
          if startswith sep s
          then let '(t, ts) := split_from sep (String.length sep - 1) s' in
               (EmptyString, t :: ts)
          else let '(t, ts) := split_from sep 0 s' in
               (String c t, ts)
      end
  end.

Definition split (sep s : string) : list string :=
  let '(t, ts) := split_from sep 0 s in t :: ts.

End PyStr.

(** ** Python values that reach the translator *)

#[warnings="-register-all"]
Inductive pyval : Type :=
| VNone
| VBool (b : bool)
| VInt (z : Z)
| VStr (s : string)
| VList (l : list pyval)
| VTuple (l : list pyval).

(** Truth value of an object, as [and] / [or] / [if] test it. *)
Definition truthy (v : pyval) : bool :=
  match v with
  | VNone => false
  | VBool b => b
  | VInt z => negb (Z.eqb z 0)
  | VStr s => negb (String.eqb s "")
  | VList l | VTuple l => match l with [] => false | _ => true end
  end.

(** [bool] is a subclass of [int]: [True] is [1], [False] is [0]. *)
Definition Z_of_bool (b : bool) : Z := if b then 1%Z else 0%Z.

(** [a == b]. *)
Fixpoint py_eq (a b : pyval) : bool :=
  let fix all2 (l1 l2 : list pyval) : bool :=
    match l1, l2 with
    | [], [] => true
    | x :: xs, y :: ys => py_eq x y && all2 xs ys
    | _, _ => false
    end in
  match a, b with
  | VNone, VNone => true
  | VBool x, VBool y => Bool.eqb x y
  | VBool x, VInt y | VInt y, VBool x => Z.eqb (Z_of_bool x) y
  | VInt x, VInt y => Z.eqb x y
  | VStr x, VStr y => String.eqb x y
  | VList x, VList y => all2 x y
  | VTuple x, VTuple y => all2 x y
  | _, _ => false
  end.

(** [x in (a, b, ...)]: membership in a tuple compares with [==]. *)
Definition py_in (x : pyval) (t : list pyval) : bool := existsb (py_eq x) t.

(** ** Exceptions and the result of a call *)

Inductive exn : Type :=
| InvalidRequestError (description key : string)
    (* "Entity '%s' has no property '%s'" *)
| AttributeError (name : string)
| ValueError_no_idea (token : string)
    (* 'No idea what to do with %r' *)
| ValueError_order_by_table
    (* 'Tried to order by table, column expected' *)
| TypeError_unexpected_argument (key : string)
    (* 'Unexpected argument %r' *)
| TypeError_depth
    (* 'Depth can only be 1 or None currently' *)
| TypeError_star_args
    (* argument after * must be an iterable *)
| TypeError_arguments (given : nat)
    (* wrong number of positional arguments *)
| TypeError_bad_operand
    (* bad operand type for unary ~ *)
| TypeError_not_serializable
| ArgumentError
    (* filter(): SQL expression object or string expected *)
| DetachedInstanceError
    (* Instance is not bound to a Session; attribute refresh operation
       cannot proceed *)
| IndexError.
    (* string index out of range, list index out of range *)

Inductive result (A : Type) : Type :=
| Ok (a : A)
| Raise (e : exn).
Arguments Ok {A} a.
Arguments Raise {A} e.

Definition bind {A B : Type} (r : result A) (k : A -> result B) : result B :=
  match r with
  | Ok a => k a
  | Raise e => Raise e
  end.

Declare Scope py_scope.
Delimit Scope py_scope with py.
Notation "'let*' x ':=' r 'in' k" := (bind r (fun x => k))
  (at level 10, x pattern, r at level 200, k at level 200, only parsing) : py_scope.
Open Scope py_scope.


(** ** The mapped schema

    [inspection.inspect(entity)] classifies what a query's join point is.
    [_entity_descriptor] only looks at which kind it is and then reads an
    attribute by name. *)

Inductive entity : Type :=
| Selectable (name : string)      (* insp.is_selectable *)
| AliasedClass (cls : string)     (* insp.is_aliased_class; insp.entity is [cls] *)
| Mapped (cls : string)           (* hasattr(insp, "mapper"); mapper.class_ is [cls] *)
| Unmapped (name : string).

(** Where [getattr] is finally applied: the column collection [insp.c] of a
    selectable, or a class. *)
Inductive namespace : Type :=
| ColumnsOf (selectable : string)
| ClassNs (cls : string).

(** What [getattr] finds.  Only an instrumented attribute has [.impl];
    [impl.uses_objects] is true for a relationship, false for a column. *)
Inductive attr_kind : Type :=
| ColumnAttr
| RelationshipAttr (target : string)
| PlainAttr.

Record descriptor : Type := Descriptor {
  d_owner : string;
  d_key : string;
  d_kind : attr_kind
}.

(** ** SQL expressions, as the calls that build them *)

(** The functions of [sqlalchemy.sql.operators] the registry refers to. *)
Inductive sa_operator : Type :=
| op_gt | op_lt | op_ge | op_le | op_eq
| contains_op | in_op | ilike_op | startswith_op | endswith_op | between_op.

Inductive expr : Type :=
| EAttr (d : descriptor)                               (* the attribute itself *)
| EExtract (field : string) (e : expr)                 (* extract(field, e) *)
| ECall (f : sa_operator) (e : expr) (args : list pyval) (* f(e, *args) *)
| ENot (e : expr)                                      (* ~e *)
| EDesc (e : expr).                                    (* e.desc() *)

(** What an operator constructor returns: a SQL expression, or (for the
    [isnull] lambda) a plain Python object. *)
Inductive criterion : Type :=
| Sql (e : expr)
| Py (v : pyval).

(** ** The query collaborator *)

Inductive load_option : Type :=
| joinedload (paths : list string)
| joinedload_all (paths : list string).

Inductive order_arg : Type :=
| OStr (s : string)       (* isinstance(arg, str) *)
| OExpr (e : expr).       (* anything else: passed through *)

Inductive call : Type :=
| CJoin (d : descriptor)
| CFilter (c : criterion)
| CResetJoinpoint
| COrderBy (args : list order_arg)
| COptions (o : load_option).

Record query : Type := Query {
  entity_zero : entity;     (* the entity the query was created for *)
  joinpoint : entity;       (* what _joinpoint_zero() returns *)
  calls : list call         (* generative calls so far, oldest first *)
}.

Module BaseQuery.

Definition _joinpoint_zero (q : query) : entity := joinpoint q.

(** [q.join(attr)]: the join point moves to the relationship's target. *)
Definition join (q : query) (d : descriptor) : query :=
  {| entity_zero := entity_zero q;
     joinpoint := match d_kind d with
                  | RelationshipAttr target => Mapped target
                  | _ => joinpoint q
                  end;
     calls := calls q ++ [CJoin d] |}.

(** [q.filter(c)] first coerces [c]: a SQL expression, a string, [None]
    and a boolean are taken; any other object raises [ArgumentError]. *)
Definition filter_argument (c : criterion) : result criterion :=
  match c with
  | Sql _ | Py VNone | Py (VBool _) | Py (VStr _) => Ok c
  | Py (VInt _) | Py (VList _) | Py (VTuple _) => Raise ArgumentError
  end.

(** [q.filter(c)] for an argument that [filter_argument] has taken. *)
Definition filter (q : query) (c : criterion) : query :=
  {| entity_zero := entity_zero q;
     joinpoint := joinpoint q;
     calls := calls q ++ [CFilter c] |}.

Definition reset_joinpoint (q : query) : query :=
  {| entity_zero := entity_zero q;
     joinpoint := entity_zero q;
     calls := calls q ++ [CResetJoinpoint] |}.

Definition order_by (q : query) (args : list order_arg) : query :=
  {| entity_zero := entity_zero q;
     joinpoint := joinpoint q;
     calls := calls q ++ [COrderBy args] |}.

(** [q.options(func( *paths))] for paths that exist on the query's entity:
    the option is recorded.  [joinedload] and [joinedload_all] read their
    last key, so no path at all raises [IndexError].  The paths are not
    looked up here: [select_related] takes this call as a parameter, and
    this instance serves the examples. *)
Definition options (q : query) (o : load_option) : result query :=
  match (match o with joinedload paths | joinedload_all paths => paths end) with
  | [] => Raise IndexError
  | _ :: _ =>
      Ok {| entity_zero := entity_zero q;
            joinpoint := joinpoint q;
            calls := calls q ++ [COptions o] |}
  end.

End BaseQuery.

(** ** Imported helpers *)

(** Modelled from the spec: [sqlalchemy.util.to_list] is imported, its body
    is not in the repository.  A scalar is wrapped into a one-element list
    and an existing sequence is returned as it is (spec 4.3, value
    coercion); for [None] the library returns its [default] argument, which
    is [None] here. *)
Definition to_list (x : pyval) : option (list pyval) :=
  match x with
  | VNone => None
  | VList l | VTuple l => Some l
  | VBool _ | VInt _ | VStr _ => Some [x]
  end.

(** [f(c, *args)]: the star needs an iterable. *)
Definition star_args (a : option (list pyval)) : result (list pyval) :=
  match a with
  | Some l => Ok l
  | None => Raise TypeError_star_args
  end.

(** Modelled from the spec: the signatures of the imported
    [sqlalchemy.sql.operators] functions, whose bodies are not in the
    repository, as (required, accepted) numbers of positional arguments
    after the column.  The comparisons and [in_op] are binary (spec 4.3:
    each operator is [(column, value) -> predicate]); [between_op] takes
    the two bounds (spec 4.3: range is between two bounds).  The optional
    last parameter, [escape] of the pattern operators and [symmetric] of
    [between_op], is the library's. *)
Definition sa_arity (f : sa_operator) : nat * nat :=
  match f with
  | op_gt | op_lt | op_ge | op_le | op_eq | in_op => (1, 1)%nat
  | contains_op | ilike_op | startswith_op | endswith_op => (1, 2)%nat
  | between_op => (2, 3)%nat
  end.

(** Calling an imported operator function on a column expression. *)
Definition call_operator (f : sa_operator) (c : expr) (args : list pyval) : result criterion :=
  let '(lo, hi) := sa_arity f in
  if (lo <=? length args)%nat && (length args <=? hi)%nat
  then Ok (Sql (ECall f c args))
  else Raise (TypeError_arguments (S (length args))).

(** [x and y], [x or y]: the operand that decided is the value. *)
Definition py_and (x y : pyval) : pyval := if truthy x then y else x.
Definition py_or (x y : pyval) : pyval := if truthy x then x else y.

(** [~x]: SQL negation on an expression, bitwise inversion on an [int]. *)
Definition invert (c : criterion) : result criterion :=
  match c with
  | Sql e => Ok (Sql (ENot e))
  | Py (VBool b) => Ok (Py (VInt (- Z_of_bool b - 1)))
  | Py (VInt z) => Ok (Py (VInt (- z - 1)))
  | Py _ => Raise TypeError_bad_operand
  end.

(** ** [_entity_descriptor] *)

Section Schema.

(** [getattr] on the column collection of a selectable or on a class. *)
Variable getattr : namespace -> string -> option attr_kind.

Definition _entity_descriptor (entity : entity) (key : string) : result descriptor :=
  let '(description, ns) :=
    match entity with
    | Selectable name => (name, ColumnsOf name)
    | AliasedClass cls => (cls, ClassNs cls)
    | Mapped cls => (cls, ClassNs cls)
    | Unmapped name => (name, ClassNs name)
    end in
  match getattr ns key with
  | Some kind => Ok (Descriptor description key kind)
  | None => Raise (InvalidRequestError description key)
  end.

(** [column.impl.uses_objects] *)
Definition uses_objects (column : descriptor) : result bool :=
  match d_kind column with
  | ColumnAttr => Ok false
  | RelationshipAttr _ => Ok true
  | PlainAttr => Raise (AttributeError "impl")
  end.

End Schema.

(** ** The load-state classifier *)

Record Mapper : Type := {
  column_attrs : list string;      (* keys of mapper.column_attrs *)
  relationships : list string      (* keys of mapper.relationships *)
}.

Record InstanceState : Type := {
  mapper : Mapper;
  transient : bool;
  expired : bool;
  unloaded : gset string;
  expired_attributes : gset string
}.

Record Instance : Type := {
  instance_state : InstanceState;               (* inspect(instance) *)
  attributes : gmap string pyval;               (* what getattr(instance, name) reads *)
  __exclude_columns__ : option (list string)    (* the class attribute, when declared *)
}.

(** What [get_entity_propnames] may be given. *)
Inductive inspectable : Type :=
| OfState (s : InstanceState)      (* isinstance(entity, InstanceState) *)
| OfInstance (o : Instance)
| OfClass (m : Mapper).

Definition get_entity_propnames (entity : inspectable) : gset string :=
  let ins_mapper :=
    match entity with
    | OfState s => mapper s
    | OfInstance o => mapper (instance_state o)
    | OfClass m => m
    end in
  list_to_set (column_attrs ins_mapper ++ relationships ins_mapper).

Definition get_entity_loaded_propnames (entity : Instance) : gset string :=
  let ins := instance_state entity in
  let keynames := get_entity_propnames (OfState ins) in
  let keynames := if negb (transient ins) then keynames ∖ unloaded ins else keynames in
  let keynames := if expired ins then keynames ∪ expired_attributes ins else keynames in
  keynames.

(** ** The serialization hook and its encoder *)

(** [getattr(self, name)] on an instance, for a mapped attribute.
    [attributes] holds what the read gives, with what a refresh or a lazy
    load fetches while the instance is bound to a session.  A name it lacks
    has to be loaded while the instance is detached, which raises
    [DetachedInstanceError].  An instance bound to a session whose row
    has gone (the [ObjectDeletedError] of the same read) is not among the
    instances modelled. *)
Definition instance_getattr (self : Instance) (name : string) : result pyval :=
  match attributes self !! name with
  | Some v => Ok v
  | None => Raise DetachedInstanceError
  end.

(** [{name: getattr(self, name) for name in names}] *)
Fixpoint dict_of_names (self : Instance) (names : list string) : result (gmap string pyval) :=
  match names with
  | [] => Ok ∅
  | name :: rest =>
      let* v := instance_getattr self name in
      let* d := dict_of_names self rest in
      Ok (<[name := v]> d)
  end.

Module JSONSerializableBase.

(** [exclude_columns] is [None] when the caller leaves the parameter out:
    its default is the empty set. *)
Definition __json__ (self : Instance) (exclude_columns : option (gset string))
  : result (gmap string pyval) :=
  let exclude_columns := default ∅ exclude_columns in
  dict_of_names self (elements (get_entity_loaded_propnames self ∖ exclude_columns)).

End JSONSerializableBase.

(** What the encoder is asked to encode: a model instance (it has
    [__json__]) or some other object. *)
Inductive pyobject : Type :=
| ModelObject (self : Instance)
| ForeignObject.

Module DynamicJSONEncoder.

(** For an object without [__json__] the base encoder's [default] is
    called, which raises [TypeError]. *)
Definition default (o : pyobject) : result (gmap string pyval) :=
  match o with
  | ModelObject self =>
      let exclude_columns : gset string := ∅ in
      let exclude_columns :=
        match __exclude_columns__ self with
        | Some cols => list_to_set cols
        | None => exclude_columns
        end in
      JSONSerializableBase.__json__ self (Some exclude_columns)
  | ForeignObject => Raise TypeError_not_serializable
  end.

End DynamicJSONEncoder.

(** ** [DjangoQuery] *)

Module DjangoQuery.

(** The lambdas written in the class body. *)
Inductive lambda : Type :=
| lambda_istartswith
| lambda_iendswith
| lambda_isnull
| lambda_extract (field : string).    (* the year, month and day lambdas *)

(** The values of the registry. *)
Inductive constructor : Type :=
| Imported (f : sa_operator)
| Lambda (f : lambda).

Definition _underscore_operators : gmap string constructor :=
  list_to_map [
    ("gt", Imported op_gt);
    ("lt", Imported op_lt);
    ("gte", Imported op_ge);
    ("lte", Imported op_le);
    ("contains", Imported contains_op);
    ("in", Imported in_op);
    ("exact", Imported op_eq);
    ("iexact", Imported ilike_op);
    ("startswith", Imported startswith_op);
    ("istartswith", Lambda lambda_istartswith);
    ("iendswith", Lambda lambda_iendswith);
    ("endswith", Imported endswith_op);
    ("isnull", Lambda lambda_isnull);
    ("range", Imported between_op);
    ("year", Lambda (lambda_extract "year"));
    ("month", Lambda (lambda_extract "month"));
    ("day", Lambda (lambda_extract "day"))
  ].

(** [x.replace('%', '%%')]: only a string has [replace]. *)
Definition escape_percent (x : pyval) : result string :=
  match x with
  | VStr s => Ok (PyStr.replace "%" "%%" s)
  | _ => Raise (AttributeError "replace")
  end.

(** The body of a lambda, [lambda c, x: ...]. *)
Definition lambda_body (f : lambda) (c : descriptor) (x : pyval) : result criterion :=
  match f with
  | lambda_istartswith =>
      (* c.ilike(x.replace('%', '%%') + '%') *)
      let* s := escape_percent x in
      Ok (Sql (ECall ilike_op (EAttr c) [VStr (s ++ "%")]))
  | lambda_iendswith =>
      (* c.ilike('%' + x.replace('%', '%%')) *)
      let* s := escape_percent x in
      Ok (Sql (ECall ilike_op (EAttr c) [VStr ("%" ++ s)]))
  | lambda_isnull =>
      (* x and c is not None or c is None; [c] is an attribute object *)
      let c_is_None := false in
      Ok (Py (py_or (py_and x (VBool (negb c_is_None))) (VBool c_is_None)))
  | lambda_extract field =>
      (* extract(field, c) == x *)
      Ok (Sql (ECall op_eq (EExtract field (EAttr c)) [x]))
  end.

(** [op(column, *args)] *)
Definition apply_constructor (op : constructor) (column : descriptor) (args : list pyval)
  : result criterion :=
  match op with
  | Imported f => call_operator f (EAttr column) args
  | Lambda f =>
      match args with
      | [x] => lambda_body f column x
      | _ => Raise (TypeError_arguments (S (length args)))
      end
  end.

(** [negate_if = lambda expr: expr if not negate else ~expr] *)
Definition negate_if (negate : bool) (e : criterion) : result criterion :=
  if negb negate then Ok e else invert e.

Section Methods.

Variable getattr : namespace -> string -> option attr_kind.

(** The inner loop of [_filter_or_exclude], over the tokens of one key. *)
Fixpoint lookup_tokens (negate : bool) (value : pyval) (tokens : list string)
    (q : query) (column : option descriptor) : result (query * option descriptor) :=
  match tokens with
  | [] => Ok (q, column)
  | token :: rest =>
      match column with
      | None =>
          let* column := _entity_descriptor getattr (BaseQuery._joinpoint_zero q) token in
          let* objects := uses_objects column in
          if objects
          then lookup_tokens negate value rest (BaseQuery.join q column) None
          else lookup_tokens negate value rest q (Some column)
      | Some c =>
          match _underscore_operators !! token with
          | Some op =>
              let* args := star_args (to_list value) in
              let* e := apply_constructor op c args in
              let* e := negate_if negate e in
              let* e := BaseQuery.filter_argument e in
              lookup_tokens negate value rest (BaseQuery.filter q e) None
          | None => Raise (ValueError_no_idea token)
          end
      end
  end.

(** The outer loop, over the items of [kwargs]. *)
Fixpoint lookup_items (negate : bool) (kwargs : list (string * pyval))
    (q : query) (column : option descriptor) : result query :=
  match kwargs with
  | [] => Ok q
  | (arg, value) :: rest =>
      let* (q, column) := lookup_tokens negate value (PyStr.split "__" arg) q column in
      let* q :=
        match column with
        | Some c =>
            (* column == value *)
            let* e := negate_if negate (Sql (ECall op_eq (EAttr c) [value])) in
            let* e := BaseQuery.filter_argument e in
            Ok (BaseQuery.filter q e)
        | None => Ok q
        end in
      lookup_items negate rest (BaseQuery.reset_joinpoint q) None
  end.

Definition _filter_or_exclude (self : query) (negate : bool) (kwargs : list (string * pyval))
  : result query :=
  lookup_items negate kwargs self None.

Definition filter_by (self : query) (kwargs : list (string * pyval)) : result query :=
  _filter_or_exclude self false kwargs.

Definition exclude_by (self : query) (kwargs : list (string * pyval)) : result query :=
  _filter_or_exclude self true kwargs.

(** [options.pop(key, default)] on the keyword dictionary. *)
Definition dict_pop (key : string) (dflt : pyval) (d : list (string * pyval))
  : pyval * list (string * pyval) :=
  (match List.find (fun kv => String.eqb (fst kv) key) d with
   | Some kv => snd kv
   | None => dflt
   end,
   List.filter (fun kv => negb (String.eqb (fst kv) key)) d).

(** The loop of [select_related] over the paths. *)
Fixpoint rewrite_columns (columns : list string) (need_all : bool) : bool * list string :=
  match columns with
  | [] => (need_all, [])
  | column :: rest =>
      let column := PyStr.replace "__" "." column in
      let need_all := if PyStr.contains "." column then true else need_all in
      let '(need_all, rest) := rewrite_columns rest need_all in
      (need_all, column :: rest)
  end.

(** [self.options(func( *columns))]: a loader function of [sqlalchemy.orm]
    applied to the paths, then [Query.options] on what it returns.  Both
    are the library's and may refuse the paths. *)
Variable options_call : query -> load_option -> result query.

Definition select_related (self : query) (columns : list string)
    (options : list (string * pyval)) : result query :=
  let '(depth, options) := dict_pop "depth" VNone options in
  match options with
  | (key, _) :: _ => Raise (TypeError_unexpected_argument key)
  | [] =>
      if negb (py_in depth [VNone; VInt 1]) then Raise TypeError_depth
      else
        let need_all := match depth with VNone => true | _ => false end in
        let '(need_all, columns) := rewrite_columns columns need_all in
        let func := if need_all then joinedload_all else joinedload in
        options_call self (func columns)
  end.

(** The token loop of [order_by] for one string term. *)
Fixpoint order_tokens (tokens : list string) (q : query) (column : option descriptor)
    (joins_needed : list descriptor)
  : result (query * option descriptor * list descriptor) :=
  match tokens with
  | [] => Ok (q, column, joins_needed)
  | token :: rest =>
      let* column := _entity_descriptor getattr (BaseQuery._joinpoint_zero q) token in
      let* objects := uses_objects column in
      if objects
      then order_tokens rest (BaseQuery.join q column) None (joins_needed ++ [column])
      else order_tokens rest q (Some column) joins_needed
  end.

(** The optional leading sign of a string term: [arg[0]] is read first. *)
Definition leading_sign (arg : string) : result (bool * string) :=
  match arg with
  | EmptyString => Raise IndexError
  | String c tail =>
      if PyStr.contains (String c EmptyString) "+-"
      then Ok (String.eqb (String c EmptyString) "-", tail)
      else Ok (false, arg)
  end.

(** The loop of [order_by] over [args]; [joins_needed] is shared by all
    terms. *)
Fixpoint order_args (self : query) (args : list order_arg) (joins_needed : list descriptor)
  : result (list order_arg * list descriptor) :=
  match args with
  | [] => Ok ([], joins_needed)
  | OExpr e :: rest =>
      let* (rest, joins_needed) := order_args self rest joins_needed in
      Ok (OExpr e :: rest, joins_needed)
  | OStr arg :: rest =>
      let* (desc, arg) := leading_sign arg in
      let* (_, column, joins_needed) :=
        order_tokens (PyStr.split "__" arg) self None joins_needed in
      match column with
      | None => Raise ValueError_order_by_table
      | Some column =>
          let column := if desc then EDesc (EAttr column) else EAttr column in
          let* (rest, joins_needed) := order_args self rest joins_needed in
          Ok (OExpr column :: rest, joins_needed)
      end
  end.

Definition order_by (self : query) (args : list order_arg) : result query :=
  let* (args, joins_needed) := order_args self args [] in
  let q := BaseQuery.order_by self args in
  Ok (fold_left BaseQuery.join joins_needed q).

End Methods.

End DjangoQuery.

(** ** A small blog schema, for examples *)

Module Blogs.

Definition getattr (ns : namespace) (key : string) : option attr_kind :=
  match ns with
  | ClassNs "Post" =>
      if String.eqb key "id" then Some ColumnAttr
      else if String.eqb key "title" then Some ColumnAttr
      else if String.eqb key "pub_date" then Some ColumnAttr
      else if String.eqb key "blog" then Some (RelationshipAttr "Blog")
      else if String.eqb key "comments" then Some (RelationshipAttr "Comment")
      else if String.eqb key "query" then Some PlainAttr
      else None
  | ClassNs "Blog" =>
      if String.eqb key "id" then Some ColumnAttr
      else if String.eqb key "name" then Some ColumnAttr
      else if String.eqb key "posts" then Some (RelationshipAttr "Post")
      else None
  | ClassNs "Comment" =>
      if String.eqb key "id" then Some ColumnAttr
      else if String.eqb key "text" then Some ColumnAttr
      else if String.eqb key "post" then Some (RelationshipAttr "Post")
      else None
  | _ => None
  end.

(** [Post.query] *)
Definition posts : query :=
  {| entity_zero := Mapped "Post"; joinpoint := Mapped "Post"; calls := [] |}.

Definition Post_id := Descriptor "Post" "id" ColumnAttr.
Definition Post_title := Descriptor "Post" "title" ColumnAttr.
Definition Post_pub_date := Descriptor "Post" "pub_date" ColumnAttr.
Definition Post_blog := Descriptor "Post" "blog" (RelationshipAttr "Blog").
Definition Post_comments := Descriptor "Post" "comments" (RelationshipAttr "Comment").
Definition Blog_id := Descriptor "Blog" "id" ColumnAttr.
Definition Blog_name := Descriptor "Blog" "name" ColumnAttr.

End Blogs.


(** ** Notions the properties are stated with *)

(** A term that [order_by] passes through. *)
Definition is_OExpr (a : order_arg) : bool :=
  match a with OExpr _ => true | OStr _ => false end.

(** The declared property names: columns union relationships. *)
Definition declared (m : Mapper) : gset string :=
  list_to_set (column_attrs m) ∪ list_to_set (relationships m).

(** The exclusion set as the specification words it: the per-call set united with
    the class default, each empty when absent. *)
Definition spec_exclusion (self : Instance) (per_call : option (gset string)) : gset string :=
  default ∅ per_call ∪
  match __exclude_columns__ self with
  | Some cols => list_to_set cols
  | None => ∅
  end.

Module Users.

Definition User_mapper : Mapper :=
  {| column_attrs := ["id"; "name"; "password"]; relationships := [] |}.

(** A fresh [User(id=1, name='e', password='x')] of a class that declares
    [__exclude_columns__ = ['password']]. *)
Definition user : Instance :=
  {| instance_state :=
       {| mapper := User_mapper; transient := true; expired := false;
          unloaded := ∅; expired_attributes := ∅ |};
     attributes := <["id" := VInt 1]> (<["name" := VStr "e"]> (<["password" := VStr "x"]> ∅));
     __exclude_columns__ := Some ["password"] |}.

End Users.

(** A value that is neither [None] nor a sequence. *)
Definition is_scalar (v : pyval) : bool :=
  match v with
  | VBool _ | VInt _ | VStr _ => true
  | VNone | VList _ | VTuple _ => false
  end.

(** The [join] calls among a list of calls. *)
Definition join_calls (cs : list call) : list descriptor :=
  omap (fun c => match c with CJoin d => Some d | _ => None end) cs.

(** The relationships met while walking [tokens] from [e], in order. *)
Fixpoint path_relationships (getattr : namespace -> string -> option attr_kind)
    (e : entity) (tokens : list string) : list descriptor :=
  match tokens with
  | [] => []
  | token :: rest =>
      match _entity_descriptor getattr e token with
      | Ok d =>
          match d_kind d with
          | RelationshipAttr target => d :: path_relationships getattr (Mapped target) rest
          | _ => path_relationships getattr e rest
          end
      | Raise _ => []
      end
  end.

(** The relationships one ordering term walks through. *)
Definition term_relationships (getattr : namespace -> string -> option attr_kind)
    (self : query) (a : order_arg) : list descriptor :=
  match a with
  | OExpr _ => []
  | OStr s =>
      match DjangoQuery.leading_sign s with
      | Ok (_, path) =>
          path_relationships getattr (BaseQuery._joinpoint_zero self) (PyStr.split "__" path)
      | Raise _ => []
      end
  end.

(** [walks getattr e tokens ds]: every token of the path names a
    relationship, [ds] are their descriptors; the path ends on a
    relationship. *)
Inductive walks (getattr : namespace -> string -> option attr_kind)
  : entity -> list string -> list descriptor -> Prop :=
| walks_nil (e : entity) : walks getattr e [] []
| walks_cons (e : entity) (token : string) (rest : list string)
    (d : descriptor) (target : string) (ds : list descriptor) :
    _entity_descriptor getattr e token = Ok d ->
    d_kind d = RelationshipAttr target ->
    walks getattr (Mapped target) rest ds ->
    walks getattr e (token :: rest) (d :: ds).

(** [sep.join(tokens)] *)
Fixpoint py_join (sep : string) (tokens : list string) : string :=
  match tokens with
  | [] => ""
  | [t] => t
  | t :: rest => t +:+ sep +:+ py_join sep rest
  end.

(** [s[n:]] *)
Fixpoint py_drop (n : nat) (s : string) : string :=
  match n, s with
  | O, _ => s
  | S _, EmptyString => EmptyString
  | S k, String _ s' => py_drop k s'
  end.

(** The calls [filter_by] and [exclude_by] may add. *)
Definition is_lookup_call (c : call) : bool :=
  match c with
  | CJoin _ | CFilter _ | CResetJoinpoint => true
  | COrderBy _ | COptions _ => false
  end.

Definition is_reset (c : call) : bool :=
  match c with CResetJoinpoint => true | _ => false end.

Definition is_filter (c : call) : bool :=
  match c with CFilter _ => true | _ => false end.

(** [~c] where it is defined, [c] itself elsewhere. *)
Definition inverted (c : criterion) : criterion :=
  match invert c with
  | Ok c' => c'
  | Raise _ => c
  end.

(** A call with its criterion inverted. *)
Definition negate_call (c : call) : call :=
  match c with
  | CFilter p => CFilter (inverted p)
  | _ => c
  end.

(** The query whose calls after the first [n] have their criteria
    inverted. *)
Definition negated_after (n : nat) (q : query) : query :=
  {| entity_zero := entity_zero q;
     joinpoint := joinpoint q;
     calls := take n (calls q) ++ map negate_call (drop n (calls q)) |}.


(** A string with every percent sign doubled. *)
Fixpoint double_percent (s : string) : string :=
  match s with
  | EmptyString => EmptyString
  | String c s' =>
      if String.eqb (String c EmptyString) "%"
      then String c (String c (double_percent s'))
      else String c (double_percent s')
  end.

Module Persisted.

Definition Post_mapper : Mapper :=
  {| column_attrs := ["id"; "title"]; relationships := ["blog"] |}.

(** A post loaded from the database, its [blog] not loaded, of a class
    that declares [__exclude_columns__ = ['title']]. *)
Definition post : Instance :=
  {| instance_state :=
       {| mapper := Post_mapper; transient := false; expired := false;
          unloaded := {["blog"]}; expired_attributes := ∅ |};
     attributes := <["id" := VInt 1]> (<["title" := VStr "t"]> ∅);
     __exclude_columns__ := Some ["title"] |}.

(** A post whose [title] was expired; reading it refreshes it. *)
Definition expired_post : Instance :=
  {| instance_state :=
       {| mapper := Post_mapper; transient := false; expired := true;
          unloaded := {["blog"]} ∪ {["title"]}; expired_attributes := {["title"]} |};
     attributes := <["id" := VInt 1]> (<["title" := VStr "t"]> ∅);
     __exclude_columns__ := None |}.

(** A post that was loaded, expired as a whole by the commit of its
    session and then detached from it: every name is unloaded, the column
    attributes are expired, and nothing can be read without a session. *)
Definition detached_post : Instance :=
  {| instance_state :=
       {| mapper := Post_mapper; transient := false; expired := true;
          unloaded := list_to_set ["id"; "title"; "blog"];
          expired_attributes := list_to_set ["id"; "title"] |};
     attributes := ∅;
     __exclude_columns__ := None |}.

End Persisted.

(** A criterion that is a SQL expression. *)
Definition is_sql (c : criterion) : bool :=
  match c with Sql _ => true | Py _ => false end.

(** No call after the first [n] filters by a Python object. *)
Definition sql_filters_after (n : nat) (q : query) : bool :=
  forallb (fun c => match c with CFilter p => is_sql p | _ => true end)
    (drop n (calls q)).

(** * Properties *)

(** ** Python strings: the functions agree with the interpreter *)

Example split_lookup_key :
  PyStr.split "__" "blog__name__exact" = ["blog"; "name"; "exact"].
Proof. reflexivity. Qed.

Example split_three_underscores : PyStr.split "__" "a___b" = ["a"; "_b"].
Proof. reflexivity. Qed.

Example split_empty : PyStr.split "__" "" = [""].
Proof. reflexivity. Qed.

Example split_single_underscores : PyStr.split "__" "pub_date" = ["pub_date"].
Proof. reflexivity. Qed.

Example replace_dunder : PyStr.replace "__" "." "a__b___c____d" = "a.b._c..d".
Proof. reflexivity. Qed.

Example replace_percent : PyStr.replace "%" "%%" "50%_%" = "50%%_%%".
Proof. reflexivity. Qed.

Example contains_sign : PyStr.contains "-" "+-" = true /\ PyStr.contains "b" "+-" = false.
Proof. split; reflexivity. Qed.

Lemma append_nil_l (s : string) : "" +:+ s = s.
Proof. reflexivity. Qed.

Lemma append_cons (a : Ascii.ascii) (s t : string) : String a s +:+ t = String a (s +:+ t).
Proof. reflexivity. Qed.

Lemma split_from_no_separator (s : string) :
  PyStr.contains "__" s = false -> PyStr.split_from "__" 0 s = (s, []).
Proof.
  induction s as [|a s IH]; [reflexivity|].
  cbn [PyStr.contains PyStr.split_from]. intros H.
  apply orb_false_elim in H as [Hstart Hrest].
  rewrite Hstart, (IH Hrest). reflexivity.
Qed.

Lemma startswith_dunder_extend (a : Ascii.ascii) (col rest : string) :
  PyStr.startswith "__" (String a (col +:+ "_")) = false ->
  PyStr.startswith "__" (String a (col +:+ "__" +:+ rest)) = false.
Proof.
  destruct col as [|b col]; rewrite ?append_nil_l, ?append_cons, ?append_nil_l;
    simpl; auto.
Qed.

Lemma split_from_column_prefix (col rest : string) :
  PyStr.contains "__" (col +:+ "_") = false ->
  PyStr.split_from "__" 0 (col +:+ "__" +:+ rest) =
    (col, let '(t, ts) := PyStr.split_from "__" 0 rest in t :: ts).
Proof.
  induction col as [|a col IH]; intros H.
  - rewrite append_nil_l, !append_cons, append_nil_l.
    cbn. by destruct (PyStr.split_from "__" 0 rest).
  - rewrite append_cons in H.
    cbn [PyStr.contains] in H. apply orb_false_elim in H as [Hstart Hrest].
    rewrite append_cons. cbn [PyStr.split_from].
    rewrite (startswith_dunder_extend a col rest Hstart), (IH Hrest).
    reflexivity.
Qed.

(** A key written [col__op] splits into [col] and [op] when [col] has no
    double underscore and no trailing underscore and [op] has no double
    underscore. *)
Lemma split_column_operator (col op : string) :
  PyStr.contains "__" (col +:+ "_") = false ->
  PyStr.contains "__" op = false ->
  PyStr.split "__" (col +:+ "__" +:+ op) = [col; op].
Proof.
  intros Hcol Hop. unfold PyStr.split.
  rewrite (split_from_column_prefix col op Hcol), (split_from_no_separator op Hop).
  reflexivity.
Qed.

(** ** The queries of the module's docstring *)

Example docstring_filter_by_year :
  DjangoQuery.filter_by Blogs.getattr Blogs.posts [("pub_date__year", VInt 2008)]
  = Ok (BaseQuery.reset_joinpoint
          (BaseQuery.filter Blogs.posts
             (Sql (ECall op_eq (EExtract "year" (EAttr Blogs.Post_pub_date)) [VInt 2008])))).
Proof. vm_compute. reflexivity. Qed.

Example docstring_exclude_by_id :
  DjangoQuery.exclude_by Blogs.getattr Blogs.posts [("id", VInt 42)]
  = Ok (BaseQuery.reset_joinpoint
          (BaseQuery.filter Blogs.posts
             (Sql (ENot (ECall op_eq (EAttr Blogs.Post_id) [VInt 42]))))).
Proof. vm_compute. reflexivity. Qed.

Example docstring_filter_by_istartswith :
  DjangoQuery.filter_by Blogs.getattr Blogs.posts [("title__istartswith", VStr "e%")]
  = Ok (BaseQuery.reset_joinpoint
          (BaseQuery.filter Blogs.posts
             (Sql (ECall ilike_op (EAttr Blogs.Post_title) [VStr "e%%%"])))).
Proof. vm_compute. reflexivity. Qed.

Example docstring_filter_through_relationship :
  DjangoQuery.filter_by Blogs.getattr Blogs.posts [("blog__name__exact", VStr "something")]
  = Ok (BaseQuery.reset_joinpoint
          (BaseQuery.filter (BaseQuery.join Blogs.posts Blogs.Post_blog)
             (Sql (ECall op_eq (EAttr Blogs.Blog_name) [VStr "something"])))).
Proof. vm_compute. reflexivity. Qed.

Example docstring_order_by_descending :
  DjangoQuery.order_by Blogs.getattr Blogs.posts [OStr "-blog__name"]
  = Ok (BaseQuery.join
          (BaseQuery.order_by Blogs.posts [OExpr (EDesc (EAttr Blogs.Blog_name))])
          Blogs.Post_blog).
Proof. vm_compute. reflexivity. Qed.

(** ** Helper lemmas *)

Lemma calls_fold_join (joins : list descriptor) (q : query) :
  calls (fold_left BaseQuery.join joins q) = calls q ++ map CJoin joins.
Proof.
  revert q. induction joins as [|d joins IH]; intros q; simpl.
  - by rewrite app_nil_r.
  - rewrite IH. simpl. by rewrite <- app_assoc.
Qed.

(** The [isnull] lambda computes a Python boolean from the truth value of
    its argument alone. *)
Lemma isnull_body (c : descriptor) (x : pyval) :
  DjangoQuery.lambda_body DjangoQuery.lambda_isnull c x = Ok (Py (VBool (truthy x))).
Proof.
  unfold DjangoQuery.lambda_body, py_or, py_and. simpl.
  destruct (truthy x) eqn:Hx; simpl; [done | by rewrite Hx].
Qed.

(** ** C9: the empty lookup mapping *)

(** C9. For every query [q], [filter_by] and [exclude_by] called with no
    keyword entries return [q] itself: no predicate, no join and no
    join-point reset is recorded, and the join point is the one [q] had. *)
Theorem C9_empty_lookup_is_identity
    (getattr : namespace -> string -> option attr_kind) (q : query) :
  DjangoQuery.filter_by getattr q [] = Ok q /\
  DjangoQuery.exclude_by getattr q [] = Ok q.
Proof. split; reflexivity. Qed.

(** ** C10: the empty string as an ordering term *)

Lemma order_args_empty_term getattr (self : query) (pre rest : list order_arg)
    (joins : list descriptor) :
  forallb is_OExpr pre = true ->
  DjangoQuery.order_args getattr self (pre ++ OStr "" :: rest) joins = Raise IndexError.
Proof.
  induction pre as [|a pre IH]; simpl; intros H; [done|].
  destruct a as [s|e]; simpl in H; [discriminate|].
  by rewrite IH.
Qed.

Lemma order_args_raises_on_empty_term getattr (self : query) (args : list order_arg)
    (joins : list descriptor) :
  In (OStr "") args ->
  exists e, DjangoQuery.order_args getattr self args joins = Raise e.
Proof.
  revert joins. induction args as [|a args IH]; intros joins Hin; [destruct Hin|].
  destruct Hin as [-> | Hin]; [by exists IndexError|].
  destruct a as [s|e]; cbn [DjangoQuery.order_args].
  - destruct (DjangoQuery.leading_sign s) as [[desc arg]|e]; cbn [bind]; [|by eexists].
    destruct (DjangoQuery.order_tokens getattr (PyStr.split "__" arg) self None joins)
      as [[[q' column] joins']|e]; cbn [bind]; [|by eexists].
    destruct column as [column|]; [|by eexists].
    destruct (IH joins' Hin) as [e ->]. by eexists.
  - destruct (IH joins Hin) as [e' ->]. by eexists.
Qed.

(** C10. [order_by] given the empty string as a term raises: with only
    non-string terms before it the exception is the [IndexError] of
    [arg[0]], and wherever the empty string stands among the terms the
    call raises and no query is returned. *)
Theorem C10_order_by_empty_string_raises
    (getattr : namespace -> string -> option attr_kind) (self : query) :
  (forall pre rest, forallb is_OExpr pre = true ->
     DjangoQuery.order_by getattr self (pre ++ OStr "" :: rest) = Raise IndexError) /\
  (forall args, In (OStr "") args ->
     exists e, DjangoQuery.order_by getattr self args = Raise e).
Proof.
  split.
  - intros pre rest Hpre. unfold DjangoQuery.order_by.
    by rewrite order_args_empty_term.
  - intros args Hin. unfold DjangoQuery.order_by.
    destruct (order_args_raises_on_empty_term getattr self args [] Hin) as [e ->].
    by exists e.
Qed.

Lemma C10_order_by_empty_string_raises_witness :
  DjangoQuery.order_by Blogs.getattr Blogs.posts [OExpr (EAttr Blogs.Post_id); OStr ""]
    = Raise IndexError /\
  exists e, DjangoQuery.order_by Blogs.getattr Blogs.posts [OStr "title"; OStr ""] = Raise e.
Proof.
  split.
  - apply (proj1 (C10_order_by_empty_string_raises Blogs.getattr Blogs.posts)
             [OExpr (EAttr Blogs.Post_id)] []).
    reflexivity.
  - apply (proj2 (C10_order_by_empty_string_raises Blogs.getattr Blogs.posts)).
    simpl. right. left. reflexivity.
Defined.

(** ** C3: the load-state classifier *)

Lemma get_entity_propnames_declared (s : InstanceState) :
  get_entity_propnames (OfState s) = declared (mapper s).
Proof. unfold get_entity_propnames, declared. by rewrite list_to_set_app_L. Qed.

(** C3. For every instance, [get_entity_loaded_propnames] is the declared
    set, minus the unloaded names when the instance is not transient, plus
    the expired attribute names when the instance is expired.  For a
    transient instance every declared name is returned whatever the
    unloaded and expired sets hold, and when the instance is not flagged
    expired the result is exactly the declared set. *)
Theorem C3_loaded_propnames :
  (forall o : Instance,
     let ins := instance_state o in
     get_entity_loaded_propnames o =
       (declared (mapper ins) ∖ (if transient ins then ∅ else unloaded ins))
       ∪ (if expired ins then expired_attributes ins else ∅)) /\
  (forall m e unl expd attrs excl,
     declared m ⊆
       get_entity_loaded_propnames
         {| instance_state := {| mapper := m; transient := true; expired := e;
                                 unloaded := unl; expired_attributes := expd |};
            attributes := attrs; __exclude_columns__ := excl |}) /\
  (forall m unl expd attrs excl,
     get_entity_loaded_propnames
       {| instance_state := {| mapper := m; transient := true; expired := false;
                               unloaded := unl; expired_attributes := expd |};
          attributes := attrs; __exclude_columns__ := excl |}
     = declared m).
Proof.
  split; [|split].
  - intros o ins. unfold get_entity_loaded_propnames. fold ins.
    rewrite get_entity_propnames_declared.
    destruct (transient ins), (expired ins); simpl; set_solver.
  - intros m e unl expd attrs excl. unfold get_entity_loaded_propnames.
    rewrite get_entity_propnames_declared. simpl. destruct e; set_solver.
  - intros m unl expd attrs excl. unfold get_entity_loaded_propnames.
    rewrite get_entity_propnames_declared. reflexivity.
Qed.

(** ** C5: the [isnull] operator *)

(** C5. The code registers for [isnull] a lambda whose result is the
    Python boolean [truthy x]: it is the same for every column, so it is
    not a predicate on the column.  [filter_by(id__isnull=True)] hands the
    constant [True] to [filter]. *)
Theorem C5_isnull_builds_python_boolean :
  DjangoQuery._underscore_operators !! "isnull" = Some (DjangoQuery.Lambda DjangoQuery.lambda_isnull) /\
  (forall (c : descriptor) (x : pyval),
     DjangoQuery.apply_constructor (DjangoQuery.Lambda DjangoQuery.lambda_isnull) c [x]
     = Ok (Py (VBool (truthy x)))) /\
  DjangoQuery.filter_by Blogs.getattr Blogs.posts [("id__isnull", VBool true)]
  = Ok (BaseQuery.reset_joinpoint (BaseQuery.filter Blogs.posts (Py (VBool true)))) /\
  DjangoQuery.filter_by Blogs.getattr Blogs.posts [("id__isnull", VBool false)]
  = Ok (BaseQuery.reset_joinpoint (BaseQuery.filter Blogs.posts (Py (VBool false)))).
Proof.
  split; [vm_compute; reflexivity|].
  split; [intros c x; apply isnull_body|].
  split; vm_compute; reflexivity.
Qed.

(** ** C4: the serialization view *)

Lemma dict_of_names_Ok (self : Instance) (names : list string) (d : gmap string pyval) :
  dict_of_names self names = Ok d ->
  dom d = list_to_set names /\
  (forall n v, d !! n = Some v -> attributes self !! n = Some v).
Proof.
  revert d. induction names as [|name names IH]; intros d; simpl.
  - intros [= <-]. split; [by rewrite dom_empty_L|].
    intros n v. by rewrite lookup_empty.
  - unfold instance_getattr.
    destruct (attributes self !! name) as [v|] eqn:Hv; simpl; [|discriminate].
    destruct (dict_of_names self names) as [d'|e]; simpl; [|discriminate].
    intros [= <-]. destruct (IH d' eq_refl) as [Hdom Hval].
    split; [rewrite dom_insert_L, Hdom; set_solver|].
    intros n w. destruct (decide (name = n)) as [<-|Hne].
    + rewrite lookup_insert_eq. by intros [= <-].
    + rewrite lookup_insert_ne by done. apply Hval.
Qed.

Lemma dict_of_names_total (self : Instance) (names : list string) :
  (forall n, n ∈ names -> is_Some (attributes self !! n)) ->
  exists d, dict_of_names self names = Ok d.
Proof.
  induction names as [|name names IH]; intros Hall; simpl; [by eexists|].
  unfold instance_getattr.
  destruct (Hall name) as [v ->]; [set_solver|]. simpl.
  destruct IH as [d ->]; [intros n Hn; apply Hall; set_solver|].
  simpl. by eexists.
Qed.

(** C4 does not hold with the united exclusion set: [user.__json__()]
    called directly does not consult the class default, so ["password"]
    is a key of the mapping. *)
Lemma C4_direct_call_ignores_class_default :
  ~ (forall (self : Instance) (per_call : option (gset string)) (d : gmap string pyval),
       JSONSerializableBase.__json__ self per_call = Ok d ->
       dom d = get_entity_loaded_propnames self ∖ spec_exclusion self per_call).
Proof.
  intros H.
  destruct (dict_of_names_total Users.user
              (elements (get_entity_loaded_propnames Users.user ∖ ∅))) as [d Hd].
  { intros n Hn. apply elem_of_elements in Hn.
    assert (n = "id" \/ n = "name" \/ n = "password") as Hcases.
    { revert Hn. unfold get_entity_loaded_propnames, get_entity_propnames. simpl.
      set_solver. }
    destruct Hcases as [-> | [-> | ->]]; by eexists. }
  pose proof (H Users.user None d Hd) as Hclaim.
  destruct (dict_of_names_Ok _ _ _ Hd) as [Hdom _].
  rewrite list_to_set_elements_L in Hdom.
  assert ("password" ∈ dom d) as Hin.
  { rewrite Hdom. unfold get_entity_loaded_propnames, get_entity_propnames. simpl.
    set_solver. }
  rewrite Hclaim in Hin. apply elem_of_difference in Hin as [_ Hnot].
  apply Hnot. unfold spec_exclusion, Users.user. cbn [__exclude_columns__].
  rewrite list_to_set_cons. set_solver.
Qed.

(** C4, corrected statement. A direct call [self.__json__(exclude)] returns, when
    every requested attribute can be read, a mapping whose key set is
    exactly the loaded names minus the per-call set (empty when left out),
    each key bound to the attribute's value; the class default is not
    consulted there.  The encoder's [default] calls [__json__] with the
    class default [__exclude_columns__] as the whole exclusion set, the
    empty set when the class declares none. *)
Theorem C4_json_key_set (self : Instance) :
  (forall per_call : option (gset string),
     let keys := get_entity_loaded_propnames self ∖ default ∅ per_call in
     (forall n, n ∈ keys -> is_Some (attributes self !! n)) ->
     exists d, JSONSerializableBase.__json__ self per_call = Ok d /\
               dom d = keys /\
               forall n, n ∈ keys -> d !! n = attributes self !! n) /\
  DynamicJSONEncoder.default (ModelObject self) =
    JSONSerializableBase.__json__ self
      (Some match __exclude_columns__ self with
            | Some cols => list_to_set cols
            | None => ∅
            end).
Proof.
  split; [|reflexivity].
  intros per_call keys Hall. unfold JSONSerializableBase.__json__. fold keys.
  destruct (dict_of_names_total self (elements keys)) as [d Hd].
  { intros n Hn. apply Hall. by apply elem_of_elements. }
  exists d. split; [done|].
  destruct (dict_of_names_Ok _ _ _ Hd) as [Hdom Hval].
  rewrite list_to_set_elements_L in Hdom. split; [done|].
  intros n Hn. rewrite <- Hdom in Hn. apply elem_of_dom in Hn as [v Hv].
  rewrite Hv. symmetry. by apply Hval.
Qed.

Lemma C4_json_key_set_witness :
  exists d, JSONSerializableBase.__json__ Users.user (Some {["name"]}) = Ok d /\
            dom d = get_entity_loaded_propnames Users.user ∖ {["name"]}.
Proof.
  destruct (proj1 (C4_json_key_set Users.user) (Some {["name"]})) as (d & Hd & Hdom & _).
  - intros n Hn. simpl in Hn.
    assert (n = "id" \/ n = "password") as [-> | ->]; [|by eexists..].
    revert Hn. unfold get_entity_loaded_propnames, get_entity_propnames. simpl.
    set_solver.
  - exists d. split; [exact Hd | exact Hdom].
Defined.

(** ** C1: what a [col__op] lookup builds *)

Lemma to_list_scalar (v : pyval) : is_scalar v = true -> to_list v = Some [v].
Proof. by destruct v. Qed.

Lemma apply_constructor_result (op : DjangoQuery.constructor) (c : descriptor)
    (args : list pyval) (p : criterion) :
  DjangoQuery.apply_constructor op c args = Ok p ->
  (exists e, p = Sql e) \/ (exists b, p = Py (VBool b)).
Proof.
  destruct op as [f|f]; simpl.
  - unfold call_operator. destruct (sa_arity f) as [lo hi].
    destruct (_ && _); [|discriminate]. intros [= <-]. left. by eexists.
  - destruct args as [|x [|y args]]; try discriminate.
    destruct f.
    + unfold DjangoQuery.lambda_body. destruct (DjangoQuery.escape_percent x); simpl;
        [|discriminate]. intros [= <-]. left. by eexists.
    + unfold DjangoQuery.lambda_body. destruct (DjangoQuery.escape_percent x); simpl;
        [|discriminate]. intros [= <-]. left. by eexists.
    + rewrite isnull_body. intros [= <-]. right. by eexists.
    + simpl. intros [= <-]. left. by eexists.
Qed.

Lemma invert_constructor_result (op : DjangoQuery.constructor) (c : descriptor)
    (args : list pyval) (p : criterion) :
  DjangoQuery.apply_constructor op c args = Ok p -> invert p = Ok (inverted p).
Proof.
  intros H. apply apply_constructor_result in H as [[e ->]|[b ->]]; reflexivity.
Qed.

Lemma filter_argument_constructor_result (op : DjangoQuery.constructor) (c : descriptor)
    (args : list pyval) (p : criterion) :
  DjangoQuery.apply_constructor op c args = Ok p -> BaseQuery.filter_argument p = Ok p.
Proof.
  intros H. apply apply_constructor_result in H as [[e ->]|[b ->]]; reflexivity.
Qed.


(** One lookup whose key splits into a column name and one more token. *)
Lemma lookup_column_operator getattr (q : query) (negate : bool)
    (key col op : string) (c : descriptor) (v : pyval) :
  PyStr.split "__" key = [col; op] ->
  _entity_descriptor getattr (BaseQuery._joinpoint_zero q) col = Ok c ->
  d_kind c = ColumnAttr ->
  DjangoQuery._filter_or_exclude getattr q negate [(key, v)] =
    match DjangoQuery._underscore_operators !! op with
    | Some f =>
        let* args := star_args (to_list v) in
        let* e := DjangoQuery.apply_constructor f c args in
        let* e := DjangoQuery.negate_if negate e in
        let* e := BaseQuery.filter_argument e in
        Ok (BaseQuery.reset_joinpoint (BaseQuery.filter q e))
    | None => Raise (ValueError_no_idea op)
    end.
Proof.
  intros Hsplit Hc Hkind.
  unfold DjangoQuery._filter_or_exclude.
  cbn [DjangoQuery.lookup_items]. rewrite Hsplit.
  cbn [DjangoQuery.lookup_tokens]. rewrite Hc. cbn [bind].
  unfold uses_objects. rewrite Hkind. cbn [bind].
  destruct (DjangoQuery._underscore_operators !! op) as [f|]; [|reflexivity].
  destruct (star_args (to_list v)) as [args|e]; [|reflexivity]. cbn [bind].
  destruct (DjangoQuery.apply_constructor f c args) as [p|e]; [|reflexivity]. cbn [bind].
  destruct (DjangoQuery.negate_if negate p) as [p'|e]; [|reflexivity]. cbn [bind].
  destruct (BaseQuery.filter_argument p') as [p''|e]; reflexivity.
Qed.

(** One lookup whose key is a column name alone. *)
Lemma lookup_column_alone getattr (q : query) (negate : bool)
    (key col : string) (c : descriptor) (v : pyval) :
  PyStr.split "__" key = [col] ->
  _entity_descriptor getattr (BaseQuery._joinpoint_zero q) col = Ok c ->
  d_kind c = ColumnAttr ->
  DjangoQuery._filter_or_exclude getattr q negate [(key, v)] =
    let eq := ECall op_eq (EAttr c) [v] in
    Ok (BaseQuery.reset_joinpoint
          (BaseQuery.filter q (Sql (if negate then ENot eq else eq)))).
Proof.
  intros Hsplit Hc Hkind.
  unfold DjangoQuery._filter_or_exclude.
  cbn [DjangoQuery.lookup_items]. rewrite Hsplit.
  cbn [DjangoQuery.lookup_tokens]. rewrite Hc. cbn [bind].
  unfold uses_objects. rewrite Hkind. cbn [bind DjangoQuery.lookup_tokens].
  by destruct negate.
Qed.




(** On a string value every registered constructor except [range], which
    needs two bounds, returns a result. *)
Lemma constructor_returns_on_string (op : string) (f : DjangoQuery.constructor)
    (c : descriptor) (s : string) :
  DjangoQuery._underscore_operators !! op = Some f ->
  op <> "range" ->
  exists p, DjangoQuery.apply_constructor f c [VStr s] = Ok p.
Proof.
  intros Hop Hne.
  apply elem_of_list_to_map_2, list_elem_of_In in Hop. simpl in Hop.
  repeat (destruct Hop as [Hop|Hop]; [inversion Hop; subst; clear Hop|]);
    try contradiction; try congruence; by eexists.
Qed.

(** ** C2: a lookup that ends on a relationship *)

Section RelationshipPaths.

Variable getattr : namespace -> string -> option attr_kind.

Lemma split_not_empty (sep s : string) :
  exists token rest, PyStr.split sep s = token :: rest.
Proof. unfold PyStr.split. destruct (PyStr.split_from sep 0 s). by eexists _, _. Qed.

(** Along a path of relationships [_filter_or_exclude] only joins. *)
Lemma lookup_tokens_walks (negate : bool) (value : pyval) (e : entity)
    (tokens : list string) (ds : list descriptor) :
  walks getattr e tokens ds ->
  forall q, BaseQuery._joinpoint_zero q = e ->
    DjangoQuery.lookup_tokens getattr negate value tokens q None
    = Ok (fold_left BaseQuery.join ds q, None).
Proof.
  induction 1 as [e|e token rest d target ds Hd Hkind _ IH]; intros q Hq; [reflexivity|].
  cbn [DjangoQuery.lookup_tokens fold_left]. rewrite Hq, Hd. cbn [bind].
  unfold uses_objects. rewrite Hkind. cbn [bind].
  apply IH. unfold BaseQuery._joinpoint_zero, BaseQuery.join. simpl. by rewrite Hkind.
Qed.

(** For every lookup whose path ends on a relationship, [filter_by] and
    [exclude_by] return the joined query: no exception and no [filter]. *)
Lemma filter_path_ending_on_relationship (q : query) (negate : bool)
    (key : string) (value : pyval) (ds : list descriptor) :
  walks getattr (BaseQuery._joinpoint_zero q) (PyStr.split "__" key) ds ->
  DjangoQuery._filter_or_exclude getattr q negate [(key, value)]
  = Ok (BaseQuery.reset_joinpoint (fold_left BaseQuery.join ds q)).
Proof.
  intros Hwalk. unfold DjangoQuery._filter_or_exclude. cbn [DjangoQuery.lookup_items].
  by rewrite (lookup_tokens_walks negate value _ _ _ Hwalk q eq_refl).
Qed.

Lemma order_tokens_walks (e : entity) (tokens : list string) (ds : list descriptor) :
  walks getattr e tokens ds ->
  forall q column joins, BaseQuery._joinpoint_zero q = e ->
    DjangoQuery.order_tokens getattr tokens q column joins
    = Ok (fold_left BaseQuery.join ds q,
          match tokens with [] => column | _ => None end,
          joins ++ ds).
Proof.
  induction 1 as [e|e token rest d target ds Hd Hkind _ IH]; intros q column joins Hq.
  - simpl. by rewrite app_nil_r.
  - cbn [DjangoQuery.order_tokens fold_left]. rewrite Hq, Hd. cbn [bind].
    unfold uses_objects. rewrite Hkind. cbn [bind].
    rewrite IH.
    + rewrite <- app_assoc. simpl. by destruct rest.
    + unfold BaseQuery._joinpoint_zero, BaseQuery.join. simpl. by rewrite Hkind.
Qed.

(** For every ordering term whose path ends on a relationship, [order_by]
    raises the [ValueError]. *)
Lemma order_by_path_ending_on_relationship (self : query) (s path : string)
    (desc : bool) (rest : list order_arg) (ds : list descriptor) :
  DjangoQuery.leading_sign s = Ok (desc, path) ->
  walks getattr (BaseQuery._joinpoint_zero self) (PyStr.split "__" path) ds ->
  DjangoQuery.order_by getattr self (OStr s :: rest) = Raise ValueError_order_by_table.
Proof.
  intros Hsign Hwalk. unfold DjangoQuery.order_by.
  cbn [DjangoQuery.order_args]. rewrite Hsign. cbn [bind].
  rewrite (order_tokens_walks _ _ _ Hwalk self None [] eq_refl).
  destruct (split_not_empty "__" path) as (token & tokens & ->).
  reflexivity.
Qed.

End RelationshipPaths.

Example walks_Post_blog :
  walks Blogs.getattr (Mapped "Post") (PyStr.split "__" "blog") [Blogs.Post_blog].
Proof. eapply walks_cons; [reflexivity | reflexivity | apply walks_nil]. Qed.

(** C2. [filter_by(blog=42)] on a path that ends on the relationship
    [Post.blog] raises nothing: the query comes back joined to [blog] with
    no [filter] call at all, the value dropped; likewise for [exclude_by].
    [order_by('blog')] raises the [ValueError] of the sibling check. *)
Theorem C2_relationship_lookup_returns_unfiltered_query :
  DjangoQuery.filter_by Blogs.getattr Blogs.posts [("blog", VInt 42)]
  = Ok (BaseQuery.reset_joinpoint (BaseQuery.join Blogs.posts Blogs.Post_blog)) /\
  DjangoQuery.exclude_by Blogs.getattr Blogs.posts [("blog", VInt 42)]
  = Ok (BaseQuery.reset_joinpoint (BaseQuery.join Blogs.posts Blogs.Post_blog)) /\
  DjangoQuery.order_by Blogs.getattr Blogs.posts [OStr "blog"]
  = Raise ValueError_order_by_table.
Proof. repeat split; vm_compute; reflexivity. Qed.

(** ** C6: sequence values and [in] *)

(** C6. [id__in=[1, 2, 3]] unpacks the list, so [in_op] is called with the
    column and three more positional arguments and raises; no membership
    predicate is built.  The sequence reaches [in_op] as one argument only
    when it is wrapped once more; [range] with a two-element list builds
    [between_op(id, 1, 5)]. *)
Theorem C6_in_with_sequence_raises :
  DjangoQuery._underscore_operators !! "in" = Some (DjangoQuery.Imported in_op) /\
  DjangoQuery.filter_by Blogs.getattr Blogs.posts
    [("id__in", VList [VInt 1; VInt 2; VInt 3])]
  = Raise (TypeError_arguments 4) /\
  DjangoQuery.filter_by Blogs.getattr Blogs.posts
    [("id__in", VList [VList [VInt 1; VInt 2; VInt 3]])]
  = Ok (BaseQuery.reset_joinpoint
          (BaseQuery.filter Blogs.posts
             (Sql (ECall in_op (EAttr Blogs.Post_id) [VList [VInt 1; VInt 2; VInt 3]])))) /\
  DjangoQuery.filter_by Blogs.getattr Blogs.posts
    [("id__range", VList [VInt 1; VInt 5])]
  = Ok (BaseQuery.reset_joinpoint
          (BaseQuery.filter Blogs.posts
             (Sql (ECall between_op (EAttr Blogs.Post_id) [VInt 1; VInt 5])))).
Proof. repeat split; vm_compute; reflexivity. Qed.

(** ** C7: the joins of [order_by] *)

Section OrderBy.

Variable getattr : namespace -> string -> option attr_kind.

Lemma order_tokens_joins (tokens : list string) :
  forall (q : query) column joins q' column' joins',
    DjangoQuery.order_tokens getattr tokens q column joins = Ok (q', column', joins') ->
    joins' = joins ++ path_relationships getattr (BaseQuery._joinpoint_zero q) tokens.
Proof.
  induction tokens as [|token rest IH]; intros q column joins q' column' joins'.
  - simpl. intros [= _ _ <-]. by rewrite app_nil_r.
  - cbn [DjangoQuery.order_tokens path_relationships].
    destruct (_entity_descriptor getattr (BaseQuery._joinpoint_zero q) token)
      as [d|e]; cbn [bind]; [|discriminate].
    unfold uses_objects.
    destruct (d_kind d) as [|target|] eqn:Hkind; cbn [bind]; [| |discriminate].
    + apply IH.
    + intros H. apply IH in H. rewrite H, <- app_assoc.
      unfold BaseQuery._joinpoint_zero, BaseQuery.join. simpl. by rewrite Hkind.
Qed.

Lemma order_args_joins (self : query) (args : list order_arg) :
  forall joins args' joins',
    DjangoQuery.order_args getattr self args joins = Ok (args', joins') ->
    joins' = joins ++ flat_map (term_relationships getattr self) args /\
    length args' = length args.
Proof.
  induction args as [|a args IH]; intros joins args' joins'.
  - simpl. intros [= <- <-]. by rewrite app_nil_r.
  - destruct a as [s|e]; cbn [DjangoQuery.order_args flat_map term_relationships].
    + destruct (DjangoQuery.leading_sign s) as [[desc path]|e]; cbn [bind]; [|discriminate].
      destruct (DjangoQuery.order_tokens getattr (PyStr.split "__" path) self None joins)
        as [[[q1 column] joins1]|e] eqn:Htok; cbn [bind]; [|discriminate].
      destruct column as [column|]; [|discriminate].
      destruct (DjangoQuery.order_args getattr self args joins1)
        as [[rest joins2]|e] eqn:Hrest; cbn [bind]; [|discriminate].
      intros [= <- <-].
      apply order_tokens_joins in Htok. apply IH in Hrest as [-> Hlen].
      rewrite Htok, <- app_assoc. simpl. by rewrite Hlen.
    + destruct (DjangoQuery.order_args getattr self args joins)
        as [[rest joins2]|e'] eqn:Hrest; cbn [bind]; [|discriminate].
      intros [= <- <-]. apply IH in Hrest as [-> Hlen]. simpl. by rewrite Hlen.
Qed.

End OrderBy.

(** C7 does not hold with unique descriptors: two terms through the same
    relationship give two [join] calls with the same descriptor. *)
Lemma C7_joins_are_not_deduplicated :
  ~ (forall getattr (self q' : query) (args : list order_arg),
       DjangoQuery.order_by getattr self args = Ok q' ->
       NoDup (join_calls (drop (length (calls self)) (calls q')))).
Proof.
  intros H.
  specialize (H Blogs.getattr Blogs.posts _ [OStr "blog__name"; OStr "blog__id"] eq_refl).
  vm_compute in H. apply NoDup_cons in H as [Hnotin _].
  apply Hnotin. left.
Qed.

(** C7, corrected statement. When [order_by] returns, the calls it adds to the query
    are the ordering clause first and then one [join] call for each
    relationship the string terms walked through, term after term and in
    path order, repetitions included; the terms keep their number. *)
Theorem C7_order_by_joins_after_ordering
    (getattr : namespace -> string -> option attr_kind)
    (self q' : query) (args : list order_arg) :
  DjangoQuery.order_by getattr self args = Ok q' ->
  exists args',
    length args' = length args /\
    calls q' =
      calls self ++ COrderBy args'
        :: map CJoin (flat_map (term_relationships getattr self) args).
Proof.
  unfold DjangoQuery.order_by.
  destruct (DjangoQuery.order_args getattr self args []) as [[args' joins]|e] eqn:Hargs;
    cbn [bind]; [|discriminate].
  intros [= <-]. apply order_args_joins in Hargs as [-> Hlen].
  exists args'. split; [done|].
  rewrite calls_fold_join. simpl. by rewrite <- app_assoc.
Qed.

Lemma C7_order_by_joins_after_ordering_witness :
  exists args',
    length args' = 2%nat /\
    calls (fold_left BaseQuery.join [Blogs.Post_blog; Blogs.Post_blog]
             (BaseQuery.order_by Blogs.posts
                [OExpr (EDesc (EAttr Blogs.Blog_name)); OExpr (EAttr Blogs.Blog_id)])) =
      COrderBy args' :: [CJoin Blogs.Post_blog; CJoin Blogs.Post_blog].
Proof.
  apply (C7_order_by_joins_after_ordering Blogs.getattr Blogs.posts _
           [OStr "-blog__name"; OStr "blog__id"]).
  reflexivity.
Defined.

(** ** C8: [select_related] *)

Lemma rewrite_columns_spec (columns : list string) (need_all : bool) :
  DjangoQuery.rewrite_columns columns need_all =
    (need_all || existsb (PyStr.contains ".") (map (PyStr.replace "__" ".") columns),
     map (PyStr.replace "__" ".") columns).
Proof.
  revert need_all. induction columns as [|column rest IH]; intros need_all; simpl.
  - by rewrite orb_false_r.
  - rewrite IH.
    destruct (PyStr.contains "." (PyStr.replace "__" "." column)), need_all; reflexivity.
Qed.

Lemma dict_pop_depth_prefix (pre post : list (string * pyval)) (key : string) (value : pyval) :
  Forall (fun kv => fst kv = "depth") pre ->
  key <> "depth" ->
  exists rest,
    snd (DjangoQuery.dict_pop "depth" VNone (pre ++ (key, value) :: post))
    = (key, value) :: rest.
Proof.
  intros Hpre Hkey. unfold DjangoQuery.dict_pop. cbn [snd].
  induction Hpre as [|[k v] pre Hk _ IH]; simpl.
  - apply String.eqb_neq in Hkey. rewrite Hkey. simpl. by eexists.
  - simpl in Hk. subst k. simpl. apply IH.
Qed.

Lemma dict_pop_depth_only (depth : pyval) (more : list (string * pyval)) :
  Forall (fun kv => fst kv = "depth") more ->
  DjangoQuery.dict_pop "depth" VNone (("depth", depth) :: more) = (depth, []).
Proof.
  intros Hmore. unfold DjangoQuery.dict_pop. simpl. f_equal.
  induction Hmore as [|[k v] more Hk _ IH]; [reflexivity|].
  simpl in Hk. subst k. simpl. apply IH.
Qed.

(** C8 does not hold with the depth check alone: beside an unrecognized
    keyword an invalid depth raises the unexpected-argument [TypeError],
    not the depth one. *)
Lemma C8_unexpected_argument_comes_first :
  ~ (forall (options_call : query -> load_option -> result query) (self : query)
            (columns : list string) (options : list (string * pyval)) (depth : pyval),
       In ("depth", depth) options ->
       depth <> VNone -> py_eq depth (VInt 1) = false ->
       DjangoQuery.select_related options_call self columns options
       = Raise TypeError_depth).
Proof.
  intros H.
  specialize (H BaseQuery.options Blogs.posts ["comments"]
                [("depth", VInt 2); ("deep", VBool true)] (VInt 2)
                (or_introl eq_refl)).
  vm_compute in H. specialize (H ltac:(discriminate) eq_refl). discriminate H.
Qed.

(** C8, corrected statement. [select_related] raises the
    unexpected-argument [TypeError] naming the first keyword other than
    [depth] whenever there is one, whatever [depth] is; with no such
    keyword it raises the depth [TypeError] for every [depth] that is
    neither [None] nor equal to [1]; otherwise it makes one call,
    [self.options] on [joinedload_all] of the rewritten paths when [depth]
    is [None] (given or left out) or some rewritten path contains a
    separator, on [joinedload] of them when [depth == 1] and no path
    does, and returns what that call returns. *)
Theorem C8_select_related
    (options_call : query -> load_option -> result query)
    (self : query) (columns : list string) :
  let paths := map (PyStr.replace "__" ".") columns in
  let multi_level := existsb (PyStr.contains ".") paths in
  (forall pre key value post,
     Forall (fun kv => fst kv = "depth") pre -> key <> "depth" ->
     DjangoQuery.select_related options_call self columns (pre ++ (key, value) :: post)
     = Raise (TypeError_unexpected_argument key)) /\
  (forall depth more,
     Forall (fun kv => fst kv = "depth") more ->
     depth <> VNone -> py_eq depth (VInt 1) = false ->
     DjangoQuery.select_related options_call self columns (("depth", depth) :: more)
     = Raise TypeError_depth) /\
  DjangoQuery.select_related options_call self columns []
  = options_call self (joinedload_all paths) /\
  (forall more,
     Forall (fun kv => fst kv = "depth") more ->
     DjangoQuery.select_related options_call self columns (("depth", VNone) :: more)
     = options_call self (joinedload_all paths)) /\
  (forall depth more,
     Forall (fun kv => fst kv = "depth") more ->
     py_eq depth (VInt 1) = true ->
     DjangoQuery.select_related options_call self columns (("depth", depth) :: more)
     = options_call self
         (if multi_level then joinedload_all paths else joinedload paths)).
Proof.
  intros paths multi_level. split; [|split; [|split; [|split]]].
  - intros pre key value post Hpre Hkey. unfold DjangoQuery.select_related.
    destruct (dict_pop_depth_prefix pre post key value Hpre Hkey) as [rest Hrest].
    destruct (DjangoQuery.dict_pop "depth" VNone (pre ++ (key, value) :: post))
      as [depth options].
    simpl in Hrest. by rewrite Hrest.
  - intros depth more Hmore Hnone Hone. unfold DjangoQuery.select_related.
    rewrite (dict_pop_depth_only depth more Hmore).
    unfold py_in. cbn [existsb]. rewrite Hone.
    by destruct depth.
  - unfold DjangoQuery.select_related. simpl. by rewrite rewrite_columns_spec.
  - intros more Hmore. unfold DjangoQuery.select_related.
    rewrite (dict_pop_depth_only VNone more Hmore). simpl.
    by rewrite rewrite_columns_spec.
  - intros depth more Hmore Hone. unfold DjangoQuery.select_related.
    rewrite (dict_pop_depth_only depth more Hmore).
    unfold py_in. cbn [existsb]. rewrite Hone, orb_true_r. cbn [negb].
    rewrite rewrite_columns_spec. unfold multi_level, paths.
    destruct depth; simpl in Hone; try discriminate Hone; cbn [orb];
      by destruct (existsb _ _).
Qed.

Lemma C8_select_related_witness :
  DjangoQuery.select_related BaseQuery.options Blogs.posts ["comments"]
    [("depth", VInt 1); ("deep", VBool true)]
  = Raise (TypeError_unexpected_argument "deep") /\
  DjangoQuery.select_related BaseQuery.options Blogs.posts ["comments"] [("depth", VInt 2)]
  = Raise TypeError_depth /\
  DjangoQuery.select_related BaseQuery.options Blogs.posts ["comments"] [("depth", VInt 1)]
  = BaseQuery.options Blogs.posts (joinedload ["comments"]).
Proof.
  split; [|split].
  - apply (proj1 (C8_select_related BaseQuery.options Blogs.posts ["comments"])
             [("depth", VInt 1)] "deep" (VBool true) []).
    + repeat constructor.
    + discriminate.
  - apply (proj1 (proj2 (C8_select_related BaseQuery.options Blogs.posts ["comments"]))
             (VInt 2) []); [constructor | discriminate | reflexivity].
  - apply (proj2 (proj2 (proj2 (proj2
             (C8_select_related BaseQuery.options Blogs.posts ["comments"]))))
             (VInt 1) []); [constructor | reflexivity].
Defined.

(** * Further properties of the code *)

(** ** [_filter_or_exclude]: how lookups compose *)

Section FilterLoop.

Variable getattr : namespace -> string -> option attr_kind.

Lemma lookup_items_app (negate : bool) (kw1 kw2 : list (string * pyval)) (q : query) :
  DjangoQuery.lookup_items getattr negate (kw1 ++ kw2) q None =
    let* q1 := DjangoQuery.lookup_items getattr negate kw1 q None in
    DjangoQuery.lookup_items getattr negate kw2 q1 None.
Proof.
  revert q. induction kw1 as [|[arg value] kw1 IH]; intros q; [reflexivity|].
  rewrite <- app_comm_cons. cbn [DjangoQuery.lookup_items].
  destruct (DjangoQuery.lookup_tokens getattr negate value (PyStr.split "__" arg) q None)
    as [[q1 column]|e]; cbn [bind]; [|reflexivity].
  destruct column as [c|]; cbn [bind].
  - destruct (DjangoQuery.negate_if negate (Sql (ECall op_eq (EAttr c) [value])))
      as [p|e]; cbn [bind]; [|reflexivity].
    destruct (BaseQuery.filter_argument p) as [p'|e]; cbn [bind];
      [apply IH | reflexivity].
  - apply IH.
Qed.

Lemma lookup_tokens_extends (negate : bool) (value : pyval) (tokens : list string) :
  forall q column q' column',
    DjangoQuery.lookup_tokens getattr negate value tokens q column = Ok (q', column') ->
    entity_zero q' = entity_zero q /\
    exists new, calls q' = calls q ++ new /\
                forallb is_lookup_call new = true /\
                List.filter is_reset new = [].
Proof.
  induction tokens as [|token rest IH]; intros q column q' column'.
  - simpl. intros [= <- _]. split; [done|]. exists []. by rewrite app_nil_r.
  - cbn [DjangoQuery.lookup_tokens]. destruct column as [c|].
    + destruct (DjangoQuery._underscore_operators !! token) as [op|]; [|discriminate].
      destruct (star_args (to_list value)) as [args|e]; cbn [bind]; [|discriminate].
      destruct (DjangoQuery.apply_constructor op c args) as [p|e]; cbn [bind]; [|discriminate].
      destruct (DjangoQuery.negate_if negate p) as [p0|e]; cbn [bind]; [|discriminate].
      destruct (BaseQuery.filter_argument p0) as [p'|e]; cbn [bind]; [|discriminate].
      intros H. apply IH in H as [Hz (new & Hcalls & Hall & Hreset)].
      split; [done|]. exists (CFilter p' :: new). simpl in Hcalls.
      rewrite Hcalls, <- app_assoc. simpl. by rewrite Hall, Hreset.
    + destruct (_entity_descriptor getattr (BaseQuery._joinpoint_zero q) token)
        as [d|e]; cbn [bind]; [|discriminate].
      destruct (uses_objects d) as [[|]|e]; cbn [bind]; [| |discriminate].
      * intros H. apply IH in H as [Hz (new & Hcalls & Hall & Hreset)].
        split; [done|]. exists (CJoin d :: new). simpl in Hcalls.
        rewrite Hcalls, <- app_assoc. simpl. by rewrite Hall, Hreset.
      * apply IH.
Qed.

Lemma lookup_items_extends (negate : bool) (kwargs : list (string * pyval)) :
  forall q column q',
    DjangoQuery.lookup_items getattr negate kwargs q column = Ok q' ->
    entity_zero q' = entity_zero q /\
    (kwargs <> [] -> joinpoint q' = entity_zero q) /\
    exists new, calls q' = calls q ++ new /\
                forallb is_lookup_call new = true /\
                length (List.filter is_reset new) = length kwargs.
Proof.
  induction kwargs as [|[arg value] rest IH]; intros q column q'.
  - simpl. intros [= <-]. split; [done|]. split; [done|].
    exists []. by rewrite app_nil_r.
  - cbn [DjangoQuery.lookup_items].
    destruct (DjangoQuery.lookup_tokens getattr negate value (PyStr.split "__" arg) q column)
      as [[q1 column1]|e] eqn:Htok; cbn [bind]; [|discriminate].
    apply lookup_tokens_extends in Htok as [Hz1 (new1 & Hc1 & Hall1 & Hr1)].
    assert (forall q2 new2,
              entity_zero q2 = entity_zero q ->
              calls q2 = calls q ++ new2 ->
              forallb is_lookup_call new2 = true ->
              List.filter is_reset new2 = [] ->
              DjangoQuery.lookup_items getattr negate rest
                (BaseQuery.reset_joinpoint q2) None = Ok q' ->
              entity_zero q' = entity_zero q /\
              (joinpoint q' = entity_zero q) /\
              exists new, calls q' = calls q ++ new /\
                          forallb is_lookup_call new = true /\
                          length (List.filter is_reset new) = S (length rest)) as Hstep.
    { intros q2 new2 Hz2 Hc2 Hall2 Hr2 H. pose proof H as H0.
      apply IH in H as [Hz (Hjp & new & Hcalls & Hall & Hreset)].
      simpl in Hz, Hcalls. split; [congruence|]. split.
      - destruct rest as [|kv rest']; [|rewrite Hjp by done; simpl; congruence].
        simpl in H0. injection H0 as <-. simpl. done.
      - exists (new2 ++ CResetJoinpoint :: new). rewrite Hcalls, Hc2, <- !app_assoc.
        split; [done|]. rewrite forallb_app, Hall2. simpl. rewrite Hall.
        split; [done|]. rewrite List.filter_app, Hr2. simpl. by rewrite Hreset. }
    destruct column1 as [c|]; cbn [bind].
    + destruct (DjangoQuery.negate_if negate (Sql (ECall op_eq (EAttr c) [value])))
        as [p0|e]; cbn [bind]; [|discriminate].
      destruct (BaseQuery.filter_argument p0) as [p|e]; cbn [bind]; [|discriminate].
      intros H.
      destruct (Hstep (BaseQuery.filter q1 p) (new1 ++ [CFilter p])) as (? & ? & ?); auto.
      * simpl. by rewrite Hc1, <- app_assoc.
      * rewrite forallb_app, Hall1. reflexivity.
      * rewrite List.filter_app, Hr1. reflexivity.
    + intros H. destruct (Hstep q1 new1) as (? & ? & ?); auto.
Qed.

End FilterLoop.

(** X1. Filtering by the lookups [kw1] followed by [kw2] in one call is
    filtering by [kw1] and then, on the query that returns, by [kw2]; an
    exception of the first part is the exception of the whole. *)
Theorem filter_or_exclude_app
    (getattr : namespace -> string -> option attr_kind) (q : query) (negate : bool)
    (kw1 kw2 : list (string * pyval)) :
  DjangoQuery._filter_or_exclude getattr q negate (kw1 ++ kw2) =
    let* q1 := DjangoQuery._filter_or_exclude getattr q negate kw1 in
    DjangoQuery._filter_or_exclude getattr q1 negate kw2.
Proof. apply lookup_items_app. Qed.

(** X2. When [_filter_or_exclude] returns, the query keeps its entity and
    all the calls it had; the calls added are joins, filters and join-point
    resets only, with exactly one reset for each lookup; and after at
    least one lookup the join point is back on the query's own entity. *)
Theorem filter_or_exclude_extends
    (getattr : namespace -> string -> option attr_kind) (q q' : query) (negate : bool)
    (kwargs : list (string * pyval)) :
  DjangoQuery._filter_or_exclude getattr q negate kwargs = Ok q' ->
  entity_zero q' = entity_zero q /\
  (kwargs <> [] -> joinpoint q' = entity_zero q) /\
  exists new, calls q' = calls q ++ new /\
              forallb is_lookup_call new = true /\
              length (List.filter is_reset new) = length kwargs.
Proof. apply lookup_items_extends. Qed.

Lemma filter_or_exclude_extends_witness :
  exists new,
    calls (BaseQuery.reset_joinpoint
             (BaseQuery.filter (BaseQuery.join Blogs.posts Blogs.Post_blog)
                (Sql (ECall op_eq (EAttr Blogs.Blog_name) [VStr "something"]))))
    = calls Blogs.posts ++ new /\
    forallb is_lookup_call new = true /\
    length (List.filter is_reset new) = 1%nat.
Proof.
  apply (filter_or_exclude_extends Blogs.getattr Blogs.posts _ false
           [("blog__name__exact", VStr "something")]).
  reflexivity.
Defined.

(** ** [exclude_by] against [filter_by] *)

Lemma negated_after_all (q : query) : negated_after (length (calls q)) q = q.
Proof.
  destruct q as [z j cs]. unfold negated_after. simpl.
  by rewrite firstn_all, drop_all, app_nil_r.
Qed.

Lemma negated_after_calls_snoc (n : nat) (cs : list call) (c : call) :
  (n <= length cs)%nat ->
  take n (cs ++ [c]) ++ map negate_call (drop n (cs ++ [c]))
  = (take n cs ++ map negate_call (drop n cs)) ++ [negate_call c].
Proof.
  intros Hn. rewrite take_app_le, drop_app_le by done.
  by rewrite map_app, app_assoc.
Qed.

Lemma negated_after_join (n : nat) (q : query) (d : descriptor) :
  (n <= length (calls q))%nat ->
  negated_after n (BaseQuery.join q d) = BaseQuery.join (negated_after n q) d.
Proof.
  intros Hn. unfold negated_after, BaseQuery.join. simpl.
  by rewrite negated_after_calls_snoc.
Qed.

Lemma negated_after_filter (n : nat) (q : query) (p : criterion) :
  (n <= length (calls q))%nat ->
  negated_after n (BaseQuery.filter q p) = BaseQuery.filter (negated_after n q) (inverted p).
Proof.
  intros Hn. unfold negated_after, BaseQuery.filter. simpl.
  by rewrite negated_after_calls_snoc.
Qed.

Lemma negated_after_reset (n : nat) (q : query) :
  (n <= length (calls q))%nat ->
  negated_after n (BaseQuery.reset_joinpoint q) = BaseQuery.reset_joinpoint (negated_after n q).
Proof.
  intros Hn. unfold negated_after, BaseQuery.reset_joinpoint. simpl.
  by rewrite negated_after_calls_snoc.
Qed.

Lemma filter_argument_Ok (p p' : criterion) :
  BaseQuery.filter_argument p = Ok p' -> p' = p.
Proof. destruct p as [e|[]]; simpl; congruence. Qed.

Lemma sql_filters_after_snoc (n : nat) (cs : list call) (c : call) :
  (n <= length cs)%nat ->
  forallb (fun c => match c with CFilter p => is_sql p | _ => true end) (drop n (cs ++ [c]))
  = forallb (fun c => match c with CFilter p => is_sql p | _ => true end) (drop n cs)
    && match c with CFilter p => is_sql p | _ => true end.
Proof.
  intros Hn. rewrite drop_app_le by done. rewrite forallb_app. simpl.
  by rewrite andb_true_r.
Qed.

Lemma sql_filters_after_prefix (n : nat) (q q' : query) (new : list call) :
  (n <= length (calls q))%nat ->
  calls q' = calls q ++ new ->
  sql_filters_after n q' = true -> sql_filters_after n q = true.
Proof.
  unfold sql_filters_after. intros Hn ->. rewrite drop_app_le by done.
  rewrite forallb_app. by intros [H _]%andb_true_iff.
Qed.

Section ExcludeMirrorsFilter.

Variable getattr : namespace -> string -> option attr_kind.

Lemma lookup_tokens_negated (n : nat) (value : pyval) (tokens : list string) :
  forall q column q1 column1,
    (n <= length (calls q))%nat ->
    DjangoQuery.lookup_tokens getattr false value tokens q column = Ok (q1, column1) ->
    sql_filters_after n q1 = true ->
    DjangoQuery.lookup_tokens getattr true value tokens (negated_after n q) column
    = Ok (negated_after n q1, column1).
Proof.
  induction tokens as [|token rest IH]; intros q column q1 column1 Hn.
  - simpl. by intros [= <- <-].
  - cbn [DjangoQuery.lookup_tokens]. destruct column as [c|].
    + destruct (DjangoQuery._underscore_operators !! token) as [op|]; [|discriminate].
      destruct (star_args (to_list value)) as [args|e]; cbn [bind]; [|discriminate].
      destruct (DjangoQuery.apply_constructor op c args) as [p|e]; cbn [bind];
        [|discriminate].
      unfold DjangoQuery.negate_if. cbn [negb bind].
      destruct (BaseQuery.filter_argument p) as [p'|e] eqn:Hp'; cbn [bind]; [|discriminate].
      apply filter_argument_Ok in Hp' as ->.
      intros Hrun Hsql.
      assert (n <= length (calls (BaseQuery.filter q p)))%nat as Hn'
        by (simpl; rewrite length_app; lia).
      pose proof Hrun as Hext.
      apply lookup_tokens_extends in Hext as [_ (new & Hcalls & _)].
      pose proof (sql_filters_after_prefix n _ _ _ Hn' Hcalls Hsql) as Hhere.
      unfold sql_filters_after in Hhere. simpl in Hhere.
      rewrite sql_filters_after_snoc in Hhere by done.
      apply andb_true_iff in Hhere as [_ Hp].
      destruct p as [e|v]; [|discriminate Hp].
      cbn [invert bind BaseQuery.filter_argument].
      change (Sql (ENot e)) with (inverted (Sql e)).
      rewrite <- negated_after_filter by done. by apply IH.
    + change (BaseQuery._joinpoint_zero (negated_after n q))
        with (BaseQuery._joinpoint_zero q).
      destruct (_entity_descriptor getattr (BaseQuery._joinpoint_zero q) token)
        as [d|e]; cbn [bind]; [|discriminate].
      destruct (uses_objects d) as [[|]|e]; cbn [bind]; [| |discriminate].
      * rewrite <- negated_after_join by done. apply IH.
        simpl. rewrite length_app. lia.
      * by apply IH.
Qed.

Lemma lookup_tokens_unnegated (n : nat) (value : pyval) (tokens : list string) :
  forall q column q2 column2,
    (n <= length (calls q))%nat ->
    sql_filters_after n q = true ->
    DjangoQuery.lookup_tokens getattr true value tokens (negated_after n q) column
    = Ok (q2, column2) ->
    exists q1,
      DjangoQuery.lookup_tokens getattr false value tokens q column = Ok (q1, column2) /\
      sql_filters_after n q1 = true /\
      q2 = negated_after n q1.
Proof.
  induction tokens as [|token rest IH]; intros q column q2 column2 Hn Hsql.
  - simpl. intros [= <- <-]. by exists q.
  - cbn [DjangoQuery.lookup_tokens]. destruct column as [c|].
    + destruct (DjangoQuery._underscore_operators !! token) as [op|]; [|discriminate].
      destruct (star_args (to_list value)) as [args|e]; cbn [bind]; [|discriminate].
      destruct (DjangoQuery.apply_constructor op c args) as [p|e] eqn:Hp; cbn [bind];
        [|discriminate].
      unfold DjangoQuery.negate_if. cbn [negb bind].
      destruct (apply_constructor_result _ _ _ _ Hp) as [[e ->]|[b ->]];
        cbn [invert bind BaseQuery.filter_argument]; [|discriminate].
      change (Sql (ENot e)) with (inverted (Sql e)).
      rewrite <- negated_after_filter by done. apply IH.
      * simpl. rewrite length_app. lia.
      * unfold sql_filters_after. simpl. rewrite sql_filters_after_snoc by done.
        apply andb_true_iff. split; [exact Hsql | reflexivity].
    + change (BaseQuery._joinpoint_zero (negated_after n q))
        with (BaseQuery._joinpoint_zero q).
      destruct (_entity_descriptor getattr (BaseQuery._joinpoint_zero q) token)
        as [d|e]; cbn [bind]; [|discriminate].
      destruct (uses_objects d) as [[|]|e]; cbn [bind]; [| |discriminate].
      * rewrite <- negated_after_join by done. apply IH.
        -- simpl. rewrite length_app. lia.
        -- unfold sql_filters_after. simpl. rewrite sql_filters_after_snoc by done.
           apply andb_true_iff. split; [exact Hsql | reflexivity].
      * by apply IH.
Qed.

Lemma lookup_items_negated (n : nat) (kwargs : list (string * pyval)) :
  forall q column q1,
    (n <= length (calls q))%nat ->
    DjangoQuery.lookup_items getattr false kwargs q column = Ok q1 ->
    sql_filters_after n q1 = true ->
    DjangoQuery.lookup_items getattr true kwargs (negated_after n q) column
    = Ok (negated_after n q1).
Proof.
  induction kwargs as [|[arg value] rest IH]; intros q column q1 Hn.
  - simpl. by intros [= <-].
  - cbn [DjangoQuery.lookup_items].
    destruct (DjangoQuery.lookup_tokens getattr false value (PyStr.split "__" arg) q column)
      as [[qa columna]|e] eqn:Htok; cbn [bind]; [|discriminate].
    pose proof Htok as Hext.
    apply lookup_tokens_extends in Hext as [_ (newa & Hcallsa & _)].
    assert (n <= length (calls qa))%nat as Hna by (rewrite Hcallsa, length_app; lia).
    destruct columna as [c|]; cbn [bind].
    + unfold DjangoQuery.negate_if. cbn [negb bind invert BaseQuery.filter_argument].
      intros Hrun Hsql.
      set (p := Sql (ECall op_eq (EAttr c) [value])) in *.
      assert (n <= length (calls (BaseQuery.reset_joinpoint (BaseQuery.filter qa p))))%nat
        as Hnb by (simpl; rewrite !length_app; lia).
      pose proof Hrun as Hext.
      apply lookup_items_extends in Hext as [_ [_ (newb & Hcallsb & _)]].
      pose proof (sql_filters_after_prefix n _ _ _ Hnb Hcallsb Hsql) as Hb.
      assert (sql_filters_after n qa = true) as Ha.
      { apply (sql_filters_after_prefix n qa
                 (BaseQuery.reset_joinpoint (BaseQuery.filter qa p))
                 [CFilter p; CResetJoinpoint] Hna); [|exact Hb].
        simpl. by rewrite <- app_assoc. }
      rewrite (lookup_tokens_negated n value _ q column qa (Some c) Hn Htok Ha).
      cbn [bind]. change (Sql (ENot (ECall op_eq (EAttr c) [value]))) with (inverted p).
      rewrite <- negated_after_filter, <- negated_after_reset; try done.
      * by apply IH.
      * simpl. rewrite length_app. lia.
    + intros Hrun Hsql.
      assert (n <= length (calls (BaseQuery.reset_joinpoint qa)))%nat
        as Hnb by (simpl; rewrite !length_app; lia).
      pose proof Hrun as Hext.
      apply lookup_items_extends in Hext as [_ [_ (newb & Hcallsb & _)]].
      pose proof (sql_filters_after_prefix n _ _ _ Hnb Hcallsb Hsql) as Hb.
      assert (sql_filters_after n qa = true) as Ha.
      { exact (sql_filters_after_prefix n qa (BaseQuery.reset_joinpoint qa)
                 [CResetJoinpoint] Hna eq_refl Hb). }
      rewrite (lookup_tokens_negated n value _ q column qa None Hn Htok Ha).
      cbn [bind]. rewrite <- negated_after_reset by done. by apply IH.
Qed.

Lemma lookup_items_unnegated (n : nat) (kwargs : list (string * pyval)) :
  forall q column q2,
    (n <= length (calls q))%nat ->
    sql_filters_after n q = true ->
    DjangoQuery.lookup_items getattr true kwargs (negated_after n q) column = Ok q2 ->
    exists q1,
      DjangoQuery.lookup_items getattr false kwargs q column = Ok q1 /\
      sql_filters_after n q1 = true /\
      q2 = negated_after n q1.
Proof.
  induction kwargs as [|[arg value] rest IH]; intros q column q2 Hn Hsql.
  - simpl. intros [= <-]. by exists q.
  - cbn [DjangoQuery.lookup_items].
    destruct (DjangoQuery.lookup_tokens getattr true value (PyStr.split "__" arg)
                (negated_after n q) column) as [[qa' columna]|e] eqn:Htok;
      cbn [bind]; [|discriminate].
    apply lookup_tokens_unnegated in Htok as (qa & Hrun & Hsqla & ->); [|done..].
    rewrite Hrun. cbn [bind].
    pose proof Hrun as Hext.
    apply lookup_tokens_extends in Hext as [_ (newa & Hcallsa & _)].
    assert (n <= length (calls qa))%nat as Hna by (rewrite Hcallsa, length_app; lia).
    destruct columna as [c|]; cbn [bind].
    + unfold DjangoQuery.negate_if. cbn [negb bind invert BaseQuery.filter_argument].
      change (Sql (ENot (ECall op_eq (EAttr c) [value])))
        with (inverted (Sql (ECall op_eq (EAttr c) [value]))).
      rewrite <- negated_after_filter, <- negated_after_reset; try done.
      * apply IH.
        -- simpl. rewrite !length_app. lia.
        -- unfold sql_filters_after. simpl.
           rewrite sql_filters_after_snoc by (rewrite length_app; lia).
           rewrite sql_filters_after_snoc by done.
           apply andb_true_iff. split; [|reflexivity].
           apply andb_true_iff. split; [exact Hsqla | reflexivity].
      * simpl. rewrite length_app. lia.
    + rewrite <- negated_after_reset by done. apply IH.
      * simpl. rewrite length_app. lia.
      * unfold sql_filters_after. simpl. rewrite sql_filters_after_snoc by done.
        apply andb_true_iff. split; [exact Hsqla | reflexivity].
Qed.

End ExcludeMirrorsFilter.

(** X3. [exclude_by] returns exactly when [filter_by] returns a query to
    which it added SQL predicates only (no Python boolean, as [isnull]
    builds), and it then returns that query with NOT around the criterion
    of each [filter] call added, the joins and resets being the same. *)
Theorem exclude_by_mirrors_filter_by
    (getattr : namespace -> string -> option attr_kind) (q : query)
    (kwargs : list (string * pyval)) :
  let n := length (calls q) in
  (forall q1,
     DjangoQuery.filter_by getattr q kwargs = Ok q1 ->
     sql_filters_after n q1 = true ->
     DjangoQuery.exclude_by getattr q kwargs = Ok (negated_after n q1)) /\
  (forall q2,
     DjangoQuery.exclude_by getattr q kwargs = Ok q2 ->
     exists q1,
       DjangoQuery.filter_by getattr q kwargs = Ok q1 /\
       sql_filters_after n q1 = true /\
       q2 = negated_after n q1).
Proof.
  intros n.
  unfold DjangoQuery.exclude_by, DjangoQuery.filter_by, DjangoQuery._filter_or_exclude.
  split.
  - intros q1 Hrun Hsql. rewrite <- (negated_after_all q) at 1.
    by apply lookup_items_negated.
  - intros q2 Hrun. rewrite <- (negated_after_all q) in Hrun.
    apply lookup_items_unnegated in Hrun; [done|done|].
    unfold sql_filters_after. by rewrite drop_all.
Qed.

Lemma exclude_by_mirrors_filter_by_witness :
  DjangoQuery.exclude_by Blogs.getattr Blogs.posts
    [("blog__name", VStr "b"); ("id__gt", VInt 3)]
  = Ok (negated_after 0
          (BaseQuery.reset_joinpoint
             (BaseQuery.filter
                (BaseQuery.reset_joinpoint
                   (BaseQuery.filter (BaseQuery.join Blogs.posts Blogs.Post_blog)
                      (Sql (ECall op_eq (EAttr Blogs.Blog_name) [VStr "b"]))))
                (Sql (ECall op_gt (EAttr Blogs.Post_id) [VInt 3]))))).
Proof.
  apply (proj1 (exclude_by_mirrors_filter_by Blogs.getattr Blogs.posts
                  [("blog__name", VStr "b"); ("id__gt", VInt 3)])).
  - vm_compute. reflexivity.
  - reflexivity.
Defined.

(** ** [_filter_or_exclude]: errors and edge cases of one lookup *)

Section OneLookup.

Variable getattr : namespace -> string -> option attr_kind.

(** What the first token of a path does when it cannot be used. *)
Lemma first_token_raises_filter (q : query) (negate : bool) (key token : string)
    (rest : list string) (value : pyval) (kws : list (string * pyval)) (e : exn) :
  PyStr.split "__" key = token :: rest ->
  (let* d := _entity_descriptor getattr (BaseQuery._joinpoint_zero q) token in
   uses_objects d) = Raise e ->
  DjangoQuery._filter_or_exclude getattr q negate ((key, value) :: kws) = Raise e.
Proof.
  intros Hsplit He. unfold DjangoQuery._filter_or_exclude.
  cbn [DjangoQuery.lookup_items]. rewrite Hsplit. cbn [DjangoQuery.lookup_tokens].
  destruct (_entity_descriptor getattr (BaseQuery._joinpoint_zero q) token) as [d|e'];
    cbn [bind] in *; [|congruence].
  by rewrite He.
Qed.

Lemma first_token_raises_order (self : query) (s path token : string) (desc : bool)
    (rest : list string) (args : list order_arg) (e : exn) :
  DjangoQuery.leading_sign s = Ok (desc, path) ->
  PyStr.split "__" path = token :: rest ->
  (let* d := _entity_descriptor getattr (BaseQuery._joinpoint_zero self) token in
   uses_objects d) = Raise e ->
  DjangoQuery.order_by getattr self (OStr s :: args) = Raise e.
Proof.
  intros Hsign Hsplit He. unfold DjangoQuery.order_by.
  cbn [DjangoQuery.order_args]. rewrite Hsign. cbn [bind]. rewrite Hsplit.
  cbn [DjangoQuery.order_tokens].
  destruct (_entity_descriptor getattr (BaseQuery._joinpoint_zero self) token) as [d|e'];
    cbn [bind] in *; [|congruence].
  by rewrite He.
Qed.

Lemma lookup_tokens_walks_app (negate : bool) (value : pyval) (e : entity)
    (path tokens : list string) (ds : list descriptor) :
  walks getattr e path ds ->
  forall q, BaseQuery._joinpoint_zero q = e ->
    DjangoQuery.lookup_tokens getattr negate value (path ++ tokens) q None
    = DjangoQuery.lookup_tokens getattr negate value tokens
        (fold_left BaseQuery.join ds q) None.
Proof.
  induction 1 as [e|e token rest d target ds Hd Hkind _ IH]; intros q Hq; [reflexivity|].
  rewrite <- app_comm_cons.
  cbn [DjangoQuery.lookup_tokens fold_left]. rewrite Hq, Hd. cbn [bind].
  unfold uses_objects. rewrite Hkind. cbn [bind].
  apply IH. unfold BaseQuery._joinpoint_zero, BaseQuery.join. simpl. by rewrite Hkind.
Qed.

Lemma order_tokens_walks_app (e : entity) (path tokens : list string)
    (ds : list descriptor) :
  walks getattr e path ds ->
  forall q column joins, BaseQuery._joinpoint_zero q = e ->
    DjangoQuery.order_tokens getattr (path ++ tokens) q column joins
    = DjangoQuery.order_tokens getattr tokens (fold_left BaseQuery.join ds q)
        (match path with [] => column | _ => None end) (joins ++ ds).
Proof.
  induction 1 as [e|e token rest d target ds Hd Hkind _ IH]; intros q column joins Hq.
  - simpl. by rewrite app_nil_r.
  - rewrite <- app_comm_cons.
    cbn [DjangoQuery.order_tokens fold_left]. rewrite Hq, Hd. cbn [bind].
    unfold uses_objects. rewrite Hkind. cbn [bind].
    rewrite IH.
    + rewrite <- app_assoc. simpl. by destruct rest.
    + unfold BaseQuery._joinpoint_zero, BaseQuery.join. simpl. by rewrite Hkind.
Qed.

End OneLookup.

(** X4. A path whose first token names no attribute of the class at the
    join point makes [filter_by], [exclude_by] and [order_by] raise
    [InvalidRequestError] with the class and the token, whatever tokens,
    lookups or terms follow. *)
Theorem unknown_property_raises
    (getattr : namespace -> string -> option attr_kind)
    (q : query) (cls token : string) :
  BaseQuery._joinpoint_zero q = Mapped cls ->
  getattr (ClassNs cls) token = None ->
  (forall negate key rest value kws,
     PyStr.split "__" key = token :: rest ->
     DjangoQuery._filter_or_exclude getattr q negate ((key, value) :: kws)
     = Raise (InvalidRequestError cls token)) /\
  (forall s desc path rest args,
     DjangoQuery.leading_sign s = Ok (desc, path) ->
     PyStr.split "__" path = token :: rest ->
     DjangoQuery.order_by getattr q (OStr s :: args)
     = Raise (InvalidRequestError cls token)).
Proof.
  intros Hq Hnone.
  assert ((let* d := _entity_descriptor getattr (BaseQuery._joinpoint_zero q) token in
           uses_objects d) = Raise (InvalidRequestError cls token)) as He.
  { rewrite Hq. unfold _entity_descriptor. by rewrite Hnone. }
  split.
  - intros negate key rest value kws Hsplit.
    by apply (first_token_raises_filter getattr q negate key token rest).
  - intros s desc path rest args Hsign Hsplit.
    by apply (first_token_raises_order getattr q s path token desc rest).
Qed.

Lemma unknown_property_raises_witness :
  DjangoQuery._filter_or_exclude Blogs.getattr Blogs.posts false
    [("author__name", VStr "e"); ("id", VInt 1)]
  = Raise (InvalidRequestError "Post" "author") /\
  DjangoQuery.order_by Blogs.getattr Blogs.posts [OStr "-author"; OStr "id"]
  = Raise (InvalidRequestError "Post" "author").
Proof.
  destruct (unknown_property_raises Blogs.getattr Blogs.posts "Post" "author"
              eq_refl eq_refl) as [Hfilter Horder].
  split.
  - apply (Hfilter false "author__name" ["name"]). reflexivity.
  - apply (Horder "-author" true "author" []); reflexivity.
Defined.

(** X5. A path whose first token names an attribute that is not
    instrumented (a method, the [query] property) makes [filter_by],
    [exclude_by] and [order_by] raise [AttributeError]: the attribute has
    no [impl]. *)
Theorem plain_attribute_raises
    (getattr : namespace -> string -> option attr_kind)
    (q : query) (cls token : string) :
  BaseQuery._joinpoint_zero q = Mapped cls ->
  getattr (ClassNs cls) token = Some PlainAttr ->
  (forall negate key rest value kws,
     PyStr.split "__" key = token :: rest ->
     DjangoQuery._filter_or_exclude getattr q negate ((key, value) :: kws)
     = Raise (AttributeError "impl")) /\
  (forall s desc path rest args,
     DjangoQuery.leading_sign s = Ok (desc, path) ->
     PyStr.split "__" path = token :: rest ->
     DjangoQuery.order_by getattr q (OStr s :: args) = Raise (AttributeError "impl")).
Proof.
  intros Hq Hplain.
  assert ((let* d := _entity_descriptor getattr (BaseQuery._joinpoint_zero q) token in
           uses_objects d) = Raise (AttributeError "impl")) as He.
  { rewrite Hq. unfold _entity_descriptor. by rewrite Hplain. }
  split.
  - intros negate key rest value kws Hsplit.
    by apply (first_token_raises_filter getattr q negate key token rest).
  - intros s desc path rest args Hsign Hsplit.
    by apply (first_token_raises_order getattr q s path token desc rest).
Qed.

Lemma plain_attribute_raises_witness :
  DjangoQuery._filter_or_exclude Blogs.getattr Blogs.posts true [("query", VInt 1)]
  = Raise (AttributeError "impl").
Proof.
  apply (proj1 (plain_attribute_raises Blogs.getattr Blogs.posts "Post" "query"
                  eq_refl eq_refl) true "query" []).
  reflexivity.
Defined.

(** X6. After a column, a token that is not a registered operator name
    makes [filter_by] and [exclude_by] raise the [ValueError] naming that
    token, whatever the value, the later tokens and the later lookups. *)
Theorem unknown_operator_raises
    (getattr : namespace -> string -> option attr_kind)
    (q : query) (col token : string) (c : descriptor) :
  _entity_descriptor getattr (BaseQuery._joinpoint_zero q) col = Ok c ->
  d_kind c = ColumnAttr ->
  DjangoQuery._underscore_operators !! token = None ->
  forall negate key rest value kws,
    PyStr.split "__" key = col :: token :: rest ->
    DjangoQuery._filter_or_exclude getattr q negate ((key, value) :: kws)
    = Raise (ValueError_no_idea token).
Proof.
  intros Hc Hkind Hnone negate key rest value kws Hsplit.
  unfold DjangoQuery._filter_or_exclude.
  cbn [DjangoQuery.lookup_items]. rewrite Hsplit.
  cbn [DjangoQuery.lookup_tokens]. rewrite Hc. cbn [bind].
  unfold uses_objects. rewrite Hkind. cbn [bind]. by rewrite Hnone.
Qed.

Lemma unknown_operator_raises_witness :
  DjangoQuery._filter_or_exclude Blogs.getattr Blogs.posts false
    [("title__like", VStr "e"); ("id", VInt 1)]
  = Raise (ValueError_no_idea "like").
Proof.
  assert (DjangoQuery._underscore_operators !! "like" = None) as Hnone
    by (vm_compute; reflexivity).
  apply (unknown_operator_raises Blogs.getattr Blogs.posts "title" "like"
           Blogs.Post_title eq_refl eq_refl Hnone false "title__like" []).
  reflexivity.
Defined.

(** X7. A lookup whose path walks through relationships and ends on a
    column of the entity reached joins each relationship in path order,
    filters by equality on that column and resets the join point. *)
Theorem filter_through_relationships
    (getattr : namespace -> string -> option attr_kind)
    (q : query) (negate : bool) (key col : string) (value : pyval)
    (path : list string) (ds : list descriptor) (c : descriptor) :
  PyStr.split "__" key = path ++ [col] ->
  walks getattr (BaseQuery._joinpoint_zero q) path ds ->
  _entity_descriptor getattr
    (BaseQuery._joinpoint_zero (fold_left BaseQuery.join ds q)) col = Ok c ->
  d_kind c = ColumnAttr ->
  DjangoQuery._filter_or_exclude getattr q negate [(key, value)] =
    let eq := ECall op_eq (EAttr c) [value] in
    Ok (BaseQuery.reset_joinpoint
          (BaseQuery.filter (fold_left BaseQuery.join ds q)
             (Sql (if negate then ENot eq else eq)))).
Proof.
  intros Hsplit Hwalk Hc Hkind.
  unfold DjangoQuery._filter_or_exclude. cbn [DjangoQuery.lookup_items].
  rewrite Hsplit, (lookup_tokens_walks_app getattr negate value _ _ _ _ Hwalk q eq_refl).
  cbn [DjangoQuery.lookup_tokens]. rewrite Hc. cbn [bind].
  unfold uses_objects. rewrite Hkind. cbn [bind]. by destruct negate.
Qed.

Lemma filter_through_relationships_witness :
  DjangoQuery._filter_or_exclude Blogs.getattr Blogs.posts false
    [("blog__posts__title", VStr "t")]
  = Ok (BaseQuery.reset_joinpoint
          (BaseQuery.filter
             (BaseQuery.join (BaseQuery.join Blogs.posts Blogs.Post_blog)
                (Descriptor "Blog" "posts" (RelationshipAttr "Post")))
             (Sql (ECall op_eq (EAttr Blogs.Post_title) [VStr "t"])))).
Proof.
  apply (filter_through_relationships Blogs.getattr Blogs.posts false
           "blog__posts__title" "title" (VStr "t") ["blog"; "posts"]
           [Blogs.Post_blog; Descriptor "Blog" "posts" (RelationshipAttr "Post")]
           Blogs.Post_title).
  - reflexivity.
  - eapply walks_cons; [reflexivity | reflexivity |].
    eapply walks_cons; [reflexivity | reflexivity | apply walks_nil].
  - reflexivity.
  - reflexivity.
Defined.

(** ** [_filter_or_exclude]: values and operators *)

Lemma replace_percent_doubles (s : string) :
  PyStr.replace "%" "%%" s = double_percent s.
Proof.
  unfold PyStr.replace. induction s as [|c s IH]; [reflexivity|].
  cbn [PyStr.replace_from PyStr.startswith double_percent String.eqb String.length].
  match goal with
  | |- context [Ascii.eqb ?p c] =>
      rewrite (Ascii.eqb_sym p c); destruct (Ascii.eqb c p) eqn:Heq
  end.
  - apply Ascii.eqb_eq in Heq as ->. cbn [andb Nat.sub].
    rewrite !append_cons, append_nil_l, IH. reflexivity.
  - cbn [andb]. by rewrite IH.
Qed.

Lemma double_percent_without_percent (s : string) :
  PyStr.contains "%" s = false -> double_percent s = s.
Proof.
  induction s as [|c s IH]; [reflexivity|].
  cbn [PyStr.contains PyStr.startswith double_percent String.eqb].
  match goal with
  | |- context [Ascii.eqb ?p c] =>
      rewrite (Ascii.eqb_sym p c); destruct (Ascii.eqb c p)
  end; cbn [orb andb]; intros H; [discriminate H|].
  by rewrite IH.
Qed.

Section Operators.

Variable getattr : namespace -> string -> option attr_kind.
Variable q : query.
Variable col : string.
Variable c : descriptor.
Hypothesis Hc : _entity_descriptor getattr (BaseQuery._joinpoint_zero q) col = Ok c.
Hypothesis Hkind : d_kind c = ColumnAttr.

(** X8. A key [col__op__col2], with a second column after the operator
    suffix, is not refused: the operator predicate on [col] is filtered
    first and then the equality of [col2] with the same value. *)
Theorem column_after_operator_is_second_lookup
    (key op col2 : string) (f : DjangoQuery.constructor) (c2 : descriptor)
    (v : pyval) (p : criterion) :
  PyStr.split "__" key = [col; op; col2] ->
  DjangoQuery._underscore_operators !! op = Some f ->
  _entity_descriptor getattr (BaseQuery._joinpoint_zero q) col2 = Ok c2 ->
  d_kind c2 = ColumnAttr ->
  is_scalar v = true ->
  DjangoQuery.apply_constructor f c [v] = Ok p ->
  DjangoQuery.filter_by getattr q [(key, v)] =
    Ok (BaseQuery.reset_joinpoint
          (BaseQuery.filter (BaseQuery.filter q p)
             (Sql (ECall op_eq (EAttr c2) [v])))).
Proof.
  intros Hsplit Hop Hc2 Hkind2 Hv Hp.
  unfold DjangoQuery.filter_by, DjangoQuery._filter_or_exclude.
  cbn [DjangoQuery.lookup_items]. rewrite Hsplit.
  cbn [DjangoQuery.lookup_tokens]. rewrite Hc. cbn [bind].
  unfold uses_objects at 1. rewrite Hkind. cbn [bind].
  rewrite Hop, (to_list_scalar v Hv). cbn [star_args bind]. rewrite Hp. cbn [bind].
  unfold DjangoQuery.negate_if at 1. cbn [negb bind].
  rewrite (filter_argument_constructor_result _ _ _ _ Hp). cbn [bind].
  change (BaseQuery._joinpoint_zero (BaseQuery.filter q p))
    with (BaseQuery._joinpoint_zero q).
  rewrite Hc2. cbn [bind]. unfold uses_objects. rewrite Hkind2. reflexivity.
Qed.

(** X9. For a scalar value the suffix [exact] changes nothing: [col__exact]
    and [col] alone build the same query, negated or not. *)
Theorem exact_is_the_default (negate : bool) (key_exact key_plain : string) (v : pyval) :
  PyStr.split "__" key_exact = [col; "exact"] ->
  PyStr.split "__" key_plain = [col] ->
  is_scalar v = true ->
  DjangoQuery._filter_or_exclude getattr q negate [(key_exact, v)] =
  DjangoQuery._filter_or_exclude getattr q negate [(key_plain, v)].
Proof.
  intros Hexact Hplain Hv.
  rewrite (lookup_column_operator getattr q negate key_exact col "exact" c v Hexact Hc Hkind).
  rewrite (lookup_column_alone getattr q negate key_plain col c v Hplain Hc Hkind).
  replace (DjangoQuery._underscore_operators !! "exact")
    with (Some (DjangoQuery.Imported op_eq)) by (vm_compute; reflexivity).
  rewrite (to_list_scalar v Hv). by destruct negate.
Qed.

(** X10. A scalar and the one-element list that holds it are the same
    value to an operator lookup: the list is unpacked into the single
    argument the scalar would be. *)
Theorem singleton_list_is_its_element (negate : bool) (key op : string) (x : pyval) :
  PyStr.split "__" key = [col; op] ->
  is_scalar x = true ->
  DjangoQuery._filter_or_exclude getattr q negate [(key, VList [x])] =
  DjangoQuery._filter_or_exclude getattr q negate [(key, x)].
Proof.
  intros Hsplit Hx.
  rewrite !(lookup_column_operator getattr q negate key col op c _ Hsplit Hc Hkind).
  by rewrite (to_list_scalar x Hx).
Qed.

(** X11. The operators written as lambdas ([istartswith], [iendswith],
    [isnull], [year], [month], [day]) take exactly one value: a list or
    tuple of any other length raises the [TypeError] of the call. *)
Theorem lambda_operator_needs_one_value (negate : bool) (key op : string)
    (f : DjangoQuery.lambda) (l : list pyval) :
  PyStr.split "__" key = [col; op] ->
  DjangoQuery._underscore_operators !! op = Some (DjangoQuery.Lambda f) ->
  length l <> 1%nat ->
  DjangoQuery._filter_or_exclude getattr q negate [(key, VList l)]
  = Raise (TypeError_arguments (S (length l))) /\
  DjangoQuery._filter_or_exclude getattr q negate [(key, VTuple l)]
  = Raise (TypeError_arguments (S (length l))).
Proof.
  intros Hsplit Hop Hlen.
  rewrite !(lookup_column_operator getattr q negate key col op c _ Hsplit Hc Hkind), Hop.
  cbn [to_list star_args bind DjangoQuery.apply_constructor].
  destruct l as [|x [|y l]]; [done | done | done].
Qed.

(** X12. [istartswith] and [iendswith] on a string build a
    case-insensitive match against the string with every percent sign
    doubled, followed (for [istartswith]) or preceded (for [iendswith]) by
    one percent sign; a string without percent signs is used as it is; a
    number or a boolean raises [AttributeError], having no [replace]. *)
Theorem ilike_operators_escape_percent (key_start key_end : string) :
  PyStr.split "__" key_start = [col; "istartswith"] ->
  PyStr.split "__" key_end = [col; "iendswith"] ->
  (forall s,
     DjangoQuery.filter_by getattr q [(key_start, VStr s)] =
       Ok (BaseQuery.reset_joinpoint
             (BaseQuery.filter q
                (Sql (ECall ilike_op (EAttr c) [VStr (double_percent s +:+ "%")])))) /\
     DjangoQuery.filter_by getattr q [(key_end, VStr s)] =
       Ok (BaseQuery.reset_joinpoint
             (BaseQuery.filter q
                (Sql (ECall ilike_op (EAttr c) [VStr ("%" +:+ double_percent s)])))) /\
     (PyStr.contains "%" s = false -> double_percent s = s)) /\
  (forall v,
     is_scalar v = true -> (forall s, v <> VStr s) ->
     DjangoQuery.filter_by getattr q [(key_start, v)] = Raise (AttributeError "replace") /\
     DjangoQuery.filter_by getattr q [(key_end, v)] = Raise (AttributeError "replace")).
Proof.
  intros Hstart Hend. unfold DjangoQuery.filter_by.
  assert (DjangoQuery._underscore_operators !! "istartswith"
          = Some (DjangoQuery.Lambda DjangoQuery.lambda_istartswith)) as Hs
    by (vm_compute; reflexivity).
  assert (DjangoQuery._underscore_operators !! "iendswith"
          = Some (DjangoQuery.Lambda DjangoQuery.lambda_iendswith)) as He
    by (vm_compute; reflexivity).
  split.
  - intros s. split; [|split].
    + rewrite (lookup_column_operator getattr q false key_start col _ c _ Hstart Hc Hkind), Hs.
      cbn [to_list star_args bind DjangoQuery.apply_constructor DjangoQuery.lambda_body
           DjangoQuery.escape_percent DjangoQuery.negate_if negb].
      by rewrite replace_percent_doubles.
    + rewrite (lookup_column_operator getattr q false key_end col _ c _ Hend Hc Hkind), He.
      cbn [to_list star_args bind DjangoQuery.apply_constructor DjangoQuery.lambda_body
           DjangoQuery.escape_percent DjangoQuery.negate_if negb].
      by rewrite replace_percent_doubles.
    + apply double_percent_without_percent.
  - intros v Hv Hnot. split.
    + rewrite (lookup_column_operator getattr q false key_start col _ c _ Hstart Hc Hkind), Hs.
      rewrite (to_list_scalar v Hv).
      destruct v; try discriminate Hv; try reflexivity. by destruct (Hnot s).
    + rewrite (lookup_column_operator getattr q false key_end col _ c _ Hend Hc Hkind), He.
      rewrite (to_list_scalar v Hv).
      destruct v; try discriminate Hv; try reflexivity. by destruct (Hnot s).
Qed.

(** X13. [exclude_by] with [isnull] raises where [filter_by] returns:
    the Python boolean the lambda builds is taken by [filter], but [~]
    turns it into an integer ([-2] or [-1]), which [filter] refuses with
    [ArgumentError].  The exception is that of the whole call, whatever
    lookups follow: no query is returned. *)
Theorem exclude_isnull_raises
    (key : string) (x : pyval) (more : list (string * pyval)) :
  PyStr.split "__" key = [col; "isnull"] ->
  is_scalar x = true ->
  DjangoQuery.filter_by getattr q [(key, x)] =
    Ok (BaseQuery.reset_joinpoint (BaseQuery.filter q (Py (VBool (truthy x))))) /\
  DjangoQuery.exclude_by getattr q ((key, x) :: more) = Raise ArgumentError.
Proof.
  intros Hsplit Hx.
  unfold DjangoQuery.exclude_by, DjangoQuery.filter_by, DjangoQuery._filter_or_exclude.
  cbn [DjangoQuery.lookup_items]. rewrite Hsplit.
  cbn [DjangoQuery.lookup_tokens]. rewrite Hc. cbn [bind].
  unfold uses_objects. rewrite Hkind. cbn [bind].
  replace (DjangoQuery._underscore_operators !! "isnull")
    with (Some (DjangoQuery.Lambda DjangoQuery.lambda_isnull)) by (vm_compute; reflexivity).
  rewrite (to_list_scalar x Hx).
  cbn [star_args bind DjangoQuery.apply_constructor]. rewrite isnull_body.
  cbn [bind DjangoQuery.negate_if negb invert BaseQuery.filter_argument
       DjangoQuery.lookup_tokens DjangoQuery.lookup_items].
  split; [reflexivity|]. by destruct (truthy x).
Qed.

End Operators.

Lemma column_after_operator_is_second_lookup_witness :
  DjangoQuery.filter_by Blogs.getattr Blogs.posts [("id__gt__title", VInt 3)] =
    Ok (BaseQuery.reset_joinpoint
          (BaseQuery.filter
             (BaseQuery.filter Blogs.posts (Sql (ECall op_gt (EAttr Blogs.Post_id) [VInt 3])))
             (Sql (ECall op_eq (EAttr Blogs.Post_title) [VInt 3])))).
Proof.
  assert (DjangoQuery._underscore_operators !! "gt" = Some (DjangoQuery.Imported op_gt))
    as Hgt by (vm_compute; reflexivity).
  apply (column_after_operator_is_second_lookup Blogs.getattr Blogs.posts "id"
           Blogs.Post_id eq_refl eq_refl "id__gt__title" "gt" "title"
           (DjangoQuery.Imported op_gt) Blogs.Post_title (VInt 3) _
           eq_refl Hgt eq_refl eq_refl eq_refl eq_refl).
Defined.

Lemma exact_is_the_default_witness :
  DjangoQuery._filter_or_exclude Blogs.getattr Blogs.posts true [("id__exact", VInt 42)] =
  DjangoQuery._filter_or_exclude Blogs.getattr Blogs.posts true [("id", VInt 42)].
Proof.
  apply (exact_is_the_default Blogs.getattr Blogs.posts "id" Blogs.Post_id
           eq_refl eq_refl true "id__exact" "id" (VInt 42) eq_refl eq_refl eq_refl).
Defined.

Lemma singleton_list_is_its_element_witness :
  DjangoQuery._filter_or_exclude Blogs.getattr Blogs.posts false
    [("pub_date__year", VList [VInt 2008])] =
  DjangoQuery._filter_or_exclude Blogs.getattr Blogs.posts false
    [("pub_date__year", VInt 2008)].
Proof.
  apply (singleton_list_is_its_element Blogs.getattr Blogs.posts "pub_date"
           Blogs.Post_pub_date eq_refl eq_refl false "pub_date__year" "year" (VInt 2008)
           eq_refl eq_refl).
Defined.

Lemma lambda_operator_needs_one_value_witness :
  DjangoQuery._filter_or_exclude Blogs.getattr Blogs.posts false
    [("pub_date__year", VList [VInt 2008; VInt 2009])]
  = Raise (TypeError_arguments 3).
Proof.
  assert (DjangoQuery._underscore_operators !! "year"
          = Some (DjangoQuery.Lambda (DjangoQuery.lambda_extract "year"))) as Hyear
    by (vm_compute; reflexivity).
  apply (proj1 (lambda_operator_needs_one_value Blogs.getattr Blogs.posts "pub_date"
                  Blogs.Post_pub_date eq_refl eq_refl false "pub_date__year" "year"
                  (DjangoQuery.lambda_extract "year") [VInt 2008; VInt 2009]
                  eq_refl Hyear ltac:(discriminate))).
Defined.

Lemma ilike_operators_escape_percent_witness :
  DjangoQuery.filter_by Blogs.getattr Blogs.posts [("title__istartswith", VStr "5%")] =
    Ok (BaseQuery.reset_joinpoint
          (BaseQuery.filter Blogs.posts
             (Sql (ECall ilike_op (EAttr Blogs.Post_title) [VStr "5%%%"])))).
Proof.
  apply (proj1 (proj1 (ilike_operators_escape_percent Blogs.getattr Blogs.posts "title"
                  Blogs.Post_title eq_refl eq_refl "title__istartswith" "title__iendswith"
                  eq_refl eq_refl) "5%")).
Defined.

Lemma exclude_isnull_raises_witness :
  DjangoQuery.exclude_by Blogs.getattr Blogs.posts
    [("title__isnull", VBool true); ("id", VInt 1)]
  = Raise ArgumentError.
Proof.
  apply (proj2 (exclude_isnull_raises Blogs.getattr Blogs.posts "title"
                  Blogs.Post_title eq_refl eq_refl "title__isnull" (VBool true)
                  [("id", VInt 1)] eq_refl eq_refl)).
Defined.

(** ** [order_by]: terms, signs and paths *)

Section OrderTerms.

Variable getattr : namespace -> string -> option attr_kind.

Lemma order_args_pass_through (self : query) (args : list order_arg)
    (joins : list descriptor) :
  forallb is_OExpr args = true ->
  DjangoQuery.order_args getattr self args joins = Ok (args, joins).
Proof.
  induction args as [|a args IH]; [reflexivity|].
  destruct a as [s|e]; simpl; [discriminate|]. intros H. by rewrite (IH H).
Qed.

Lemma order_args_shape (self : query) (args : list order_arg) :
  forall joins args' joins',
    DjangoQuery.order_args getattr self args joins = Ok (args', joins') ->
    forallb is_OExpr args' = true /\
    forall i e, args !! i = Some (OExpr e) -> args' !! i = Some (OExpr e).
Proof.
  induction args as [|a args IH]; intros joins args' joins'.
  - simpl. intros [= <- _]. split; [done|]. intros i e. by rewrite lookup_nil.
  - destruct a as [s|e]; cbn [DjangoQuery.order_args].
    + destruct (DjangoQuery.leading_sign s) as [[desc path]|x]; cbn [bind]; [|discriminate].
      destruct (DjangoQuery.order_tokens getattr (PyStr.split "__" path) self None joins)
        as [[[q1 column] joins1]|x]; cbn [bind]; [|discriminate].
      destruct column as [column|]; [|discriminate].
      destruct (DjangoQuery.order_args getattr self args joins1)
        as [[rest joins2]|x] eqn:Hrest; cbn [bind]; [|discriminate].
      intros [= <- _]. apply IH in Hrest as [Hall Hpos].
      split; [done|]. intros [|i] e'; [discriminate|]. apply Hpos.
    + destruct (DjangoQuery.order_args getattr self args joins)
        as [[rest joins2]|x] eqn:Hrest; cbn [bind]; [|discriminate].
      intros [= <- _]. apply IH in Hrest as [Hall Hpos].
      split; [done|]. intros [|i] e'; [done|]. apply Hpos.
Qed.

(** One string term that resolves, followed by the remaining terms. *)
Lemma order_args_string_term (self : query) (s : string) (rest : list order_arg)
    (joins : list descriptor) (args' : list order_arg) (joins' : list descriptor) :
  DjangoQuery.order_args getattr self (OStr s :: rest) joins = Ok (args', joins') ->
  exists desc path q1 c joins1 rest',
    DjangoQuery.leading_sign s = Ok (desc, path) /\
    DjangoQuery.order_tokens getattr (PyStr.split "__" path) self None joins
      = Ok (q1, Some c, joins1) /\
    DjangoQuery.order_args getattr self rest joins1 = Ok (rest', joins') /\
    args' = OExpr (if desc then EDesc (EAttr c) else EAttr c) :: rest'.
Proof.
  cbn [DjangoQuery.order_args].
  destruct (DjangoQuery.leading_sign s) as [[desc path]|x] eqn:Hsign; cbn [bind];
    [|discriminate].
  destruct (DjangoQuery.order_tokens getattr (PyStr.split "__" path) self None joins)
    as [[[q1 column] joins1]|x] eqn:Htok; cbn [bind]; [|discriminate].
  destruct column as [c|]; [|discriminate].
  destruct (DjangoQuery.order_args getattr self rest joins1)
    as [[rest' joins2]|x] eqn:Hrest; cbn [bind]; [|discriminate].
  intros [= <- <-]. by exists desc, path, q1, c, joins1, rest'.
Qed.

End OrderTerms.

(** X14. [order_by] given only terms that are not strings resolves
    nothing: it is the base query's [order_by] on the same terms, with no
    join. *)
Theorem order_by_passes_expressions_through
    (getattr : namespace -> string -> option attr_kind)
    (self : query) (args : list order_arg) :
  forallb is_OExpr args = true ->
  DjangoQuery.order_by getattr self args = Ok (BaseQuery.order_by self args).
Proof.
  intros H. unfold DjangoQuery.order_by.
  by rewrite (order_args_pass_through getattr self args [] H).
Qed.

Lemma order_by_passes_expressions_through_witness :
  DjangoQuery.order_by Blogs.getattr Blogs.posts
    [OExpr (EDesc (EAttr Blogs.Post_id)); OExpr (EAttr Blogs.Post_title)]
  = Ok (BaseQuery.order_by Blogs.posts
          [OExpr (EDesc (EAttr Blogs.Post_id)); OExpr (EAttr Blogs.Post_title)]).
Proof.
  apply (order_by_passes_expressions_through Blogs.getattr Blogs.posts). reflexivity.
Defined.

(** X15. When [order_by] returns, the base query's [order_by] was given as
    many terms as the call, none of them a string, each non-string term
    at its own position and unchanged; the query keeps its entity. *)
Theorem order_by_resolves_every_string
    (getattr : namespace -> string -> option attr_kind)
    (self q' : query) (args : list order_arg) :
  DjangoQuery.order_by getattr self args = Ok q' ->
  exists args' joins,
    q' = fold_left BaseQuery.join joins (BaseQuery.order_by self args') /\
    length args' = length args /\
    forallb is_OExpr args' = true /\
    (forall i e, args !! i = Some (OExpr e) -> args' !! i = Some (OExpr e)) /\
    entity_zero q' = entity_zero self.
Proof.
  unfold DjangoQuery.order_by.
  destruct (DjangoQuery.order_args getattr self args []) as [[args' joins]|e] eqn:Hargs;
    cbn [bind]; [|discriminate].
  intros [= <-]. exists args', joins.
  destruct (order_args_shape getattr self args _ _ _ Hargs) as [Hall Hpos].
  destruct (order_args_joins getattr self args _ _ _ Hargs) as [_ Hlen].
  repeat split; try done.
  assert (forall q, entity_zero (fold_left BaseQuery.join joins q) = entity_zero q) as H.
  { clear. induction joins as [|d joins IH]; intros q; simpl; [done|]. by rewrite IH. }
  rewrite H. reflexivity.
Qed.

Lemma order_by_resolves_every_string_witness :
  exists args' joins,
    BaseQuery.join (BaseQuery.order_by Blogs.posts
                      [OExpr (EAttr Blogs.Post_id); OExpr (EDesc (EAttr Blogs.Blog_name))])
                   Blogs.Post_blog
    = fold_left BaseQuery.join joins (BaseQuery.order_by Blogs.posts args') /\
    length args' = 2%nat /\
    forallb is_OExpr args' = true /\
    (forall i e,
       [OExpr (EAttr Blogs.Post_id); OStr "-blog__name"] !! i = Some (OExpr e) ->
       args' !! i = Some (OExpr e)) /\
    entity_zero (BaseQuery.join (BaseQuery.order_by Blogs.posts
                      [OExpr (EAttr Blogs.Post_id); OExpr (EDesc (EAttr Blogs.Blog_name))])
                   Blogs.Post_blog) = entity_zero Blogs.posts.
Proof.
  apply (order_by_resolves_every_string Blogs.getattr Blogs.posts _
           [OExpr (EAttr Blogs.Post_id); OStr "-blog__name"]).
  reflexivity.
Defined.

(** X16. The leading sign is the only difference between [name], [+name]
    and [-name]: for a term that does not itself start with a sign, the
    [+] form gives the same query, and the [-] form gives the same query
    with [desc()] applied to the ordering key of that term. *)
Theorem order_by_sign
    (getattr : namespace -> string -> option attr_kind)
    (self q1 : query) (ch : Ascii.ascii) (tail : string) (rest : list order_arg) :
  let s := String ch tail in
  PyStr.contains (String ch EmptyString) "+-" = false ->
  DjangoQuery.order_by getattr self (OStr s :: rest) = Ok q1 ->
  exists c args' joins,
    q1 = fold_left BaseQuery.join joins
           (BaseQuery.order_by self (OExpr (EAttr c) :: args')) /\
    DjangoQuery.order_by getattr self (OStr ("+" +:+ s) :: rest) = Ok q1 /\
    DjangoQuery.order_by getattr self (OStr ("-" +:+ s) :: rest)
    = Ok (fold_left BaseQuery.join joins
            (BaseQuery.order_by self (OExpr (EDesc (EAttr c)) :: args'))).
Proof.
  intros s Hsign. unfold DjangoQuery.order_by.
  destruct (DjangoQuery.order_args getattr self (OStr s :: rest) [])
    as [[args1 joins1]|e] eqn:Hargs; cbn [bind]; [|discriminate].
  intros [= <-].
  apply order_args_string_term in Hargs
    as (desc & path & q' & c & joins' & rest' & Hlead & Htok & Hrest & ->).
  assert (DjangoQuery.leading_sign s = Ok (false, s)) as Hs.
  { unfold s, DjangoQuery.leading_sign. by rewrite Hsign. }
  rewrite Hs in Hlead. injection Hlead as <- <-.
  exists c, rest', joins1. split; [reflexivity|].
  assert (DjangoQuery.leading_sign ("+" +:+ s) = Ok (false, s)) as Hplus by reflexivity.
  assert (DjangoQuery.leading_sign ("-" +:+ s) = Ok (true, s)) as Hminus by reflexivity.
  cbn [DjangoQuery.order_args]. rewrite Hplus, Hminus. cbn [bind].
  rewrite Htok. cbn [bind]. rewrite Hrest. cbn [bind]. split; reflexivity.
Qed.

Lemma order_by_sign_witness :
  exists c args' joins,
    BaseQuery.order_by Blogs.posts [OExpr (EAttr Blogs.Post_title)]
    = fold_left BaseQuery.join joins
        (BaseQuery.order_by Blogs.posts (OExpr (EAttr c) :: args')) /\
    DjangoQuery.order_by Blogs.getattr Blogs.posts [OStr "+title"]
    = Ok (BaseQuery.order_by Blogs.posts [OExpr (EAttr Blogs.Post_title)]) /\
    DjangoQuery.order_by Blogs.getattr Blogs.posts [OStr "-title"]
    = Ok (fold_left BaseQuery.join joins
            (BaseQuery.order_by Blogs.posts (OExpr (EDesc (EAttr c)) :: args'))).
Proof.
  apply (order_by_sign Blogs.getattr Blogs.posts _ (Ascii.ascii_of_nat 116) "itle" []);
    reflexivity.
Defined.

(** X17. An ordering term whose path walks through relationships and ends
    on a column of the entity reached orders by that column, descending
    under a leading [-], and joins each relationship in path order after
    the ordering clause. *)
Theorem order_by_through_relationships
    (getattr : namespace -> string -> option attr_kind)
    (self : query) (s p col : string) (desc : bool)
    (path : list string) (ds : list descriptor) (c : descriptor) :
  DjangoQuery.leading_sign s = Ok (desc, p) ->
  PyStr.split "__" p = path ++ [col] ->
  walks getattr (BaseQuery._joinpoint_zero self) path ds ->
  _entity_descriptor getattr
    (BaseQuery._joinpoint_zero (fold_left BaseQuery.join ds self)) col = Ok c ->
  d_kind c = ColumnAttr ->
  DjangoQuery.order_by getattr self [OStr s] =
    Ok (fold_left BaseQuery.join ds
          (BaseQuery.order_by self
             [OExpr (if desc then EDesc (EAttr c) else EAttr c)])).
Proof.
  intros Hsign Hsplit Hwalk Hc Hkind. unfold DjangoQuery.order_by.
  cbn [DjangoQuery.order_args]. rewrite Hsign. cbn [bind].
  rewrite Hsplit, (order_tokens_walks_app getattr _ _ _ _ Hwalk self None [] eq_refl).
  cbn [DjangoQuery.order_tokens]. rewrite Hc. cbn [bind].
  unfold uses_objects. rewrite Hkind. reflexivity.
Qed.

Lemma order_by_through_relationships_witness :
  DjangoQuery.order_by Blogs.getattr Blogs.posts [OStr "-blog__name"] =
    Ok (fold_left BaseQuery.join [Blogs.Post_blog]
          (BaseQuery.order_by Blogs.posts [OExpr (EDesc (EAttr Blogs.Blog_name))])).
Proof.
  apply (order_by_through_relationships Blogs.getattr Blogs.posts "-blog__name"
           "blog__name" "name" true ["blog"] [Blogs.Post_blog] Blogs.Blog_name).
  - reflexivity.
  - reflexivity.
  - eapply walks_cons; [reflexivity | reflexivity | apply walks_nil].
  - reflexivity.
  - reflexivity.
Defined.

(** X18. In an ordering term every token is looked up afresh: when two
    column names of the join point are written one after the other, the
    term orders by the second and the first is dropped. *)
Theorem order_by_last_column_wins
    (getattr : namespace -> string -> option attr_kind)
    (self : query) (s p col1 col2 : string) (desc : bool) (c1 c2 : descriptor) :
  DjangoQuery.leading_sign s = Ok (desc, p) ->
  PyStr.split "__" p = [col1; col2] ->
  _entity_descriptor getattr (BaseQuery._joinpoint_zero self) col1 = Ok c1 ->
  d_kind c1 = ColumnAttr ->
  _entity_descriptor getattr (BaseQuery._joinpoint_zero self) col2 = Ok c2 ->
  d_kind c2 = ColumnAttr ->
  DjangoQuery.order_by getattr self [OStr s] =
    Ok (BaseQuery.order_by self [OExpr (if desc then EDesc (EAttr c2) else EAttr c2)]).
Proof.
  intros Hsign Hsplit Hc1 Hk1 Hc2 Hk2. unfold DjangoQuery.order_by.
  cbn [DjangoQuery.order_args]. rewrite Hsign. cbn [bind]. rewrite Hsplit.
  cbn [DjangoQuery.order_tokens]. rewrite Hc1. cbn [bind].
  unfold uses_objects at 1. rewrite Hk1. cbn [bind].
  rewrite Hc2. cbn [bind]. unfold uses_objects. rewrite Hk2. reflexivity.
Qed.

Lemma order_by_last_column_wins_witness :
  DjangoQuery.order_by Blogs.getattr Blogs.posts [OStr "title__id"] =
    Ok (BaseQuery.order_by Blogs.posts [OExpr (EAttr Blogs.Post_id)]).
Proof.
  apply (order_by_last_column_wins Blogs.getattr Blogs.posts "title__id" "title__id"
           "title" "id" false Blogs.Post_title Blogs.Post_id); reflexivity.
Defined.

(** ** Keys and paths as strings *)

Lemma py_join_cons_char (sep : string) (c : Ascii.ascii) (t : string) (ts : list string) :
  py_join sep (String c t :: ts) = String c (py_join sep (t :: ts)).
Proof. destruct ts; reflexivity. Qed.

Lemma py_join_cons_token (sep t t' : string) (ts : list string) :
  py_join sep (t :: t' :: ts) = t +:+ sep +:+ py_join sep (t' :: ts).
Proof. reflexivity. Qed.

Lemma startswith_dunder_inv (s : string) :
  PyStr.startswith "__" s = true -> s = "__" +:+ py_drop 2 s.
Proof.
  destruct s as [|a [|b s]]; cbn [PyStr.startswith py_drop]; try discriminate.
  - match goal with |- context [Ascii.eqb ?u a] => by destruct (Ascii.eqb u a) end.
  - match goal with |- context [Ascii.eqb ?u a] => destruct (Ascii.eqb_spec u a) as [<-|] end;
      [|discriminate].
    match goal with |- context [Ascii.eqb ?u b] => destruct (Ascii.eqb_spec u b) as [<-|] end;
      [|discriminate].
    reflexivity.
Qed.

Lemma split_from_join (s : string) :
  forall skip,
    py_join "__" (fst (PyStr.split_from "__" skip s) :: snd (PyStr.split_from "__" skip s))
    = py_drop skip s.
Proof.
  induction s as [|c s IH]; intros skip; [by destruct skip|].
  cbn [PyStr.split_from]. destruct skip as [|k]; [|apply IH].
  destruct (PyStr.startswith "__" (String c s)) eqn:Hstart.
  - specialize (IH (String.length "__" - 1)%nat).
    destruct (PyStr.split_from "__" (String.length "__" - 1) s) as [t ts].
    cbn [fst snd] in *. rewrite py_join_cons_token, IH, append_nil_l.
    etransitivity; [|symmetry; apply (startswith_dunder_inv _ Hstart)]. reflexivity.
  - specialize (IH 0%nat).
    destruct (PyStr.split_from "__" 0 s) as [t ts].
    cbn [fst snd] in *. by rewrite py_join_cons_char, IH.
Qed.

(** The head token keeps the first character of a string that does not
    begin with the separator. *)
Lemma split_head_no_dunder (a : Ascii.ascii) (s : string) :
  PyStr.startswith "__" (String a s) = false ->
  PyStr.startswith "__" (String a (fst (PyStr.split_from "__" 0 s))) = false.
Proof.
  destruct s as [|c s]; [done|]. cbn [PyStr.split_from].
  destruct (PyStr.startswith "__" (String c s)).
  - destruct (PyStr.split_from "__" (String.length "__" - 1) s). intros _.
    cbn [fst PyStr.startswith].
    match goal with |- context [Ascii.eqb ?u a] => by destruct (Ascii.eqb u a) end.
  - by destruct (PyStr.split_from "__" 0 s).
Qed.

Lemma split_from_tokens_no_dunder (s : string) :
  forall skip,
    PyStr.contains "__" (fst (PyStr.split_from "__" skip s)) = false /\
    Forall (fun t => PyStr.contains "__" t = false) (snd (PyStr.split_from "__" skip s)).
Proof.
  induction s as [|c s IH]; intros skip; [by split|].
  cbn [PyStr.split_from]. destruct skip as [|k]; [|apply IH].
  destruct (PyStr.startswith "__" (String c s)) eqn:Hstart.
  - destruct (IH (String.length "__" - 1)%nat) as [Ht Hts].
    destruct (PyStr.split_from "__" (String.length "__" - 1) s) as [t ts].
    cbn [fst snd] in *. split; [reflexivity|]. by constructor.
  - destruct (IH 0%nat) as [Ht Hts].
    pose proof (split_head_no_dunder c s Hstart) as Hhead.
    destruct (PyStr.split_from "__" 0 s) as [t ts].
    cbn [fst snd] in *. split; [|done].
    cbn [PyStr.contains]. by rewrite Hhead, Ht.
Qed.

(** X19. Splitting a key on the double underscore loses nothing and
    leaves no separator behind: the tokens joined by ["__"] are the key
    again, and no token contains a double underscore. *)
Theorem split_dunder_round_trip (key : string) :
  py_join "__" (PyStr.split "__" key) = key /\
  Forall (fun token => PyStr.contains "__" token = false) (PyStr.split "__" key).
Proof.
  unfold PyStr.split.
  pose proof (split_from_join key 0) as Hjoin.
  destruct (split_from_tokens_no_dunder key 0) as [Ht Hts].
  destruct (PyStr.split_from "__" 0 key) as [t ts]. cbn [fst snd] in *.
  split; [exact Hjoin | by constructor].
Qed.

Lemma replace_without_occurrence (old new s : string) :
  PyStr.contains old s = false -> PyStr.replace old new s = s.
Proof.
  unfold PyStr.replace. induction s as [|c s IH]; [reflexivity|].
  cbn [PyStr.contains PyStr.replace_from]. intros H.
  apply orb_false_elim in H as [Hstart Hrest]. by rewrite Hstart, (IH Hrest).
Qed.

Lemma replace_head_no_dunder (a : Ascii.ascii) (s : string) :
  PyStr.startswith "__" (String a s) = false ->
  PyStr.startswith "__" (String a (PyStr.replace_from "__" "." 0 s)) = false.
Proof.
  destruct s as [|c s]; [done|]. cbn [PyStr.replace_from].
  destruct (PyStr.startswith "__" (String c s)); [|done].
  intros _. rewrite append_cons, append_nil_l. cbn [PyStr.startswith].
  match goal with |- context [Ascii.eqb ?u a] => by destruct (Ascii.eqb u a) end.
Qed.

Lemma replace_from_no_dunder (s : string) :
  forall skip, PyStr.contains "__" (PyStr.replace_from "__" "." skip s) = false.
Proof.
  induction s as [|c s IH]; intros skip; [reflexivity|].
  cbn [PyStr.replace_from]. destruct skip as [|k]; [|apply IH].
  destruct (PyStr.startswith "__" (String c s)) eqn:Hstart.
  - rewrite append_cons, append_nil_l. cbn [PyStr.contains]. rewrite IH.
    reflexivity.
  - cbn [PyStr.contains]. by rewrite (replace_head_no_dunder c s Hstart), IH.
Qed.

Lemma replace_dunder_idempotent (s : string) :
  PyStr.replace "__" "." (PyStr.replace "__" "." s) = PyStr.replace "__" "." s.
Proof. apply replace_without_occurrence, replace_from_no_dunder. Qed.

(** ** [select_related]: the spelling of paths *)

(** X20. [select_related] does not tell the two spellings of a path
    apart: paths written with [__] and the same paths with every [__]
    already rewritten to a dot give the same result, query or exception,
    under the same options; and no rewritten path contains a double
    underscore. *)
Theorem select_related_separator_spelling
    (options_call : query -> load_option -> result query)
    (self : query) (columns : list string) (options : list (string * pyval)) :
  DjangoQuery.select_related options_call self (map (PyStr.replace "__" ".") columns) options
  = DjangoQuery.select_related options_call self columns options /\
  Forall (fun path => PyStr.contains "__" path = false)
    (map (PyStr.replace "__" ".") columns).
Proof.
  split.
  - unfold DjangoQuery.select_related.
    destruct (DjangoQuery.dict_pop "depth" VNone options) as [depth rest].
    destruct rest; [|reflexivity].
    destruct (negb (py_in depth [VNone; VInt 1])); [reflexivity|].
    rewrite !rewrite_columns_spec, map_map.
    by rewrite (map_ext _ _ replace_dunder_idempotent).
  - apply Forall_map, Forall_forall. intros path _. apply replace_from_no_dunder.
Qed.

(** ** [__json__] and the encoder: what is read and what is left out *)

Lemma dict_of_names_raises (self : Instance) (names : list string) (n : string) :
  n ∈ names -> attributes self !! n = None ->
  dict_of_names self names = Raise DetachedInstanceError.
Proof.
  intros Hin Hnone. induction names as [|name names IH].
  - by apply elem_of_nil in Hin.
  - cbn [dict_of_names]. unfold instance_getattr.
    destruct (attributes self !! name) as [v|] eqn:Hv; cbn [bind]; [|reflexivity].
    apply elem_of_cons in Hin as [->|Hin]; [congruence|].
    by rewrite (IH Hin).
Qed.

(** X21. When an attribute that [__json__] has to read (a loaded name
    that is not excluded) cannot be read, the instance being detached,
    the call raises the [DetachedInstanceError] of that read: it returns
    no partial mapping. *)
Theorem json_raises_on_unreadable_attribute
    (self : Instance) (exclude_columns : option (gset string)) (n : string) :
  n ∈ get_entity_loaded_propnames self ∖ default ∅ exclude_columns ->
  attributes self !! n = None ->
  JSONSerializableBase.__json__ self exclude_columns = Raise DetachedInstanceError.
Proof.
  intros Hin Hnone. unfold JSONSerializableBase.__json__.
  apply (dict_of_names_raises self _ n); [by apply elem_of_elements|done].
Qed.

(** X22. What [__json__] returns never holds a name outside the loaded
    set: for an instance that is neither transient nor expired no
    unloaded name is a key, so building the mapping reads no attribute
    that would have to be fetched. *)
Theorem json_never_reads_unloaded
    (self : Instance) (exclude_columns : option (gset string)) (d : gmap string pyval) :
  JSONSerializableBase.__json__ self exclude_columns = Ok d ->
  dom d = get_entity_loaded_propnames self ∖ default ∅ exclude_columns /\
  (transient (instance_state self) = false ->
   expired (instance_state self) = false ->
   forall n, n ∈ unloaded (instance_state self) -> d !! n = None).
Proof.
  unfold JSONSerializableBase.__json__. intros Hd.
  apply dict_of_names_Ok in Hd as [Hdom _].
  rewrite list_to_set_elements_L in Hdom. split; [done|].
  intros Htransient Hexpired n Hn. apply not_elem_of_dom. rewrite Hdom.
  unfold get_entity_loaded_propnames. rewrite Htransient, Hexpired. simpl.
  set_solver.
Qed.

(** X23. For an instance that is expired, every expired attribute name
    that is not excluded is a key of what [__json__] returns, also when
    the name is unloaded. *)
Theorem json_includes_expired_attributes
    (self : Instance) (exclude_columns : option (gset string)) (d : gmap string pyval)
    (n : string) :
  JSONSerializableBase.__json__ self exclude_columns = Ok d ->
  expired (instance_state self) = true ->
  n ∈ expired_attributes (instance_state self) ->
  n ∉ default ∅ exclude_columns ->
  exists v, d !! n = Some v /\ attributes self !! n = Some v.
Proof.
  unfold JSONSerializableBase.__json__. intros Hd Hexpired Hn Hnot.
  apply dict_of_names_Ok in Hd as [Hdom Hval].
  rewrite list_to_set_elements_L in Hdom.
  assert (n ∈ dom d) as Hin.
  { rewrite Hdom. unfold get_entity_loaded_propnames. rewrite Hexpired.
    apply elem_of_difference. split; [|done]. apply elem_of_union. by right. }
  apply elem_of_dom in Hin as [v Hv]. exists v. split; [done|]. by apply Hval.
Qed.

(** X24. What the encoder returns for a model instance never holds a name
    listed in the class's [__exclude_columns__], and holds only loaded
    names. *)
Theorem encoder_leaves_out_class_exclusions
    (self : Instance) (cols : list string) (d : gmap string pyval) :
  __exclude_columns__ self = Some cols ->
  DynamicJSONEncoder.default (ModelObject self) = Ok d ->
  (forall n, n ∈ cols -> d !! n = None) /\
  dom d ⊆ get_entity_loaded_propnames self.
Proof.
  unfold DynamicJSONEncoder.default, JSONSerializableBase.__json__.
  intros -> Hd. apply dict_of_names_Ok in Hd as [Hdom _].
  rewrite list_to_set_elements_L in Hdom. cbn [default] in Hdom. split.
  - intros n Hn. apply not_elem_of_dom. rewrite Hdom.
    intros [_ Hnot]%elem_of_difference. apply Hnot. by apply elem_of_list_to_set.
  - rewrite Hdom. apply subseteq_difference_l. reflexivity.
Qed.

Lemma json_raises_on_unreadable_attribute_witness :
  JSONSerializableBase.__json__ Persisted.detached_post None = Raise DetachedInstanceError.
Proof.
  apply (json_raises_on_unreadable_attribute Persisted.detached_post None "title").
  - apply (bool_decide_unpack _). vm_compute. exact I.
  - vm_compute. reflexivity.
Defined.

Lemma json_never_reads_unloaded_witness :
  match JSONSerializableBase.__json__ Persisted.post None with
  | Ok d => d !! "blog" = None
  | Raise _ => False
  end.
Proof.
  destruct (JSONSerializableBase.__json__ Persisted.post None) as [d|e] eqn:Hd;
    [|vm_compute in Hd; discriminate Hd].
  apply (proj2 (json_never_reads_unloaded Persisted.post None d Hd)).
  - reflexivity.
  - reflexivity.
  - apply (bool_decide_unpack _). vm_compute. exact I.
Defined.

Lemma json_includes_expired_attributes_witness :
  match JSONSerializableBase.__json__ Persisted.expired_post None with
  | Ok d => exists v, d !! "title" = Some v /\
                      attributes Persisted.expired_post !! "title" = Some v
  | Raise _ => False
  end.
Proof.
  destruct (JSONSerializableBase.__json__ Persisted.expired_post None) as [d|e] eqn:Hd;
    [|vm_compute in Hd; discriminate Hd].
  apply (json_includes_expired_attributes Persisted.expired_post None d "title" Hd).
  - reflexivity.
  - apply (bool_decide_unpack _). vm_compute. exact I.
  - apply (bool_decide_unpack _). vm_compute. exact I.
Defined.

Lemma encoder_leaves_out_class_exclusions_witness :
  match DynamicJSONEncoder.default (ModelObject Persisted.post) with
  | Ok d => d !! "title" = None
  | Raise _ => False
  end.
Proof.
  destruct (DynamicJSONEncoder.default (ModelObject Persisted.post)) as [d|e] eqn:Hd;
    [|vm_compute in Hd; discriminate Hd].
  apply (proj1 (encoder_leaves_out_class_exclusions Persisted.post ["title"] d eq_refl Hd)).
  apply (bool_decide_unpack _). vm_compute. exact I.
Defined.
